(** * A shallow embedding of the HMMER daemon client of [pyhmmer.daemon]

    This development models [Client._recvall] and [Client._client] of
    [src/pyhmmer/daemon.pyx], together with the public entry points
    [search_seq], [search_msa], [search_hmm] and [scan_seq].

    The socket is modelled explicitly: the list of chunks passed to the
    send calls, and the list of fragments the peer delivers before closing
    the connection.  Python exceptions are values of [exn]; the client code
    runs in a small state/exception monad over the socket and the list of
    emitted warnings.  The libhmmer deserializers ([hmmd_search_status_Deserialize],
    [p7_hmmd_search_stats_Deserialize], [p7_hit_Deserialize]) and the query
    serializer ([query.write]) are external collaborators: they are the
    variables of the section [Client]. *)

From Stdlib Require Import String Ascii Bool Arith NArith ZArith Lia List.
From Stdlib Require Import Init.Byte.
Import ListNotations.
Open Scope list_scope.

(** ** Python values and exceptions *)

(** Python objects that can occur inside a [ranges] tuple. *)
Inductive pyobj : Type :=
| PyInt (z : Z)
| PyStr (s : string).

(** The Python exceptions raised on the paths of [_client]. *)
Inductive exn : Type :=
| ValueError (msg : string)
| TypeError (msg : string)
| UnicodeEncodeError
| EOFError (message_size received : nat)
| UnexpectedError (status : Z) (fname : string)
| ServerError (status : Z) (message : list Z).

Inductive outcome (A : Type) : Type :=
| Ok (a : A)
| Err (e : exn).
Arguments Ok {A} a.
Arguments Err {A} e.

(** Warnings emitted with [warnings.warn]; under the default warning
    filters a warning is recorded and execution continues. *)
Inductive warning : Type :=
| HitOffsetWarning (i : nat) (expected : N) (found : Z).

(** ** The socket and the client monad *)

Record St : Type := mkSt {
  sock_sent : list (list byte);      (** one entry per send call, in order *)
  sock_in   : list (list byte);      (** fragments still to be delivered; [] = closed *)
  warns     : list warning           (** warnings emitted so far *)
}.

Definition M (A : Type) : Type := St -> outcome A * St.

Definition ret {A} (a : A) : M A := fun s => (Ok a, s).
Definition raise {A} (e : exn) : M A := fun s => (Err e, s).
Definition bind {A B} (m : M A) (f : A -> M B) : M B :=
  fun s => match m s with
           | (Ok a, s') => f a s'
           | (Err e, s') => (Err e, s')
           end.

Notation "x <- m ;; k" := (bind m (fun x => k))
  (at level 61, m at next level, right associativity).
Notation "m ;;; k" := (bind m (fun _ => k))
  (at level 61, right associativity).

Definition lift {A} (o : outcome A) : M A :=
  match o with Ok a => ret a | Err e => raise e end.

Definition warn (w : warning) : M unit :=
  fun s => (Ok tt, mkSt (sock_sent s) (sock_in s) (warns s ++ [w])).

(** [socket.sendall(data)]. *)
Definition sendall (data : list byte) : M unit :=
  fun s => (Ok tt, mkSt (sock_sent s ++ [data]) (sock_in s) (warns s)).

(** One read of at most [cap] bytes from the peer, as done by
    [socket.recv(cap)] and by [socket.recv_into(view)] with [len(view) = cap]:
    the bytes currently available (the head fragment), cut at [cap]; the rest
    of the fragment stays in the socket.  A closed connection yields no
    byte. *)
Definition recv_chunk (cap : nat) : M (list byte) :=
  fun s =>
    match sock_in s with
    | [] => (Ok [], s)
    | h :: t =>
        let k := Nat.min cap (length h) in
        let rest := match skipn k h with [] => t | r => r :: t end in
        (Ok (firstn k h), mkSt (sock_sent s) rest (warns s))
    end.

(** [socket.recv(n)]: a single read. *)
Definition recv (n : nat) : M (list byte) := recv_chunk n.

(** ** [Client._recvall] *)

(** Writing [data] into [buffer] through the view [memoryview(buffer)[off:]]. *)
Definition write_at (buffer : list byte) (off : nat) (data : list byte) : list byte :=
  firstn off buffer ++ data ++ skipn (off + length data) buffer.

(** The [while received < message_size] loop; [fuel] bounds the number of
    iterations, each of which adds at least one byte to [received]. *)
Fixpoint recvall_loop (fuel : nat) (message_size received : nat)
    (buffer : list byte) : M (list byte) :=
  match fuel with
  | O => ret buffer
  | S fuel' =>
      if received <? message_size then
        data <- recv_chunk (message_size - received) ;;
        let recv_size := length data in
        if recv_size =? 0 then raise (EOFError message_size received)
        else recvall_loop fuel' message_size (received + recv_size)
               (write_at buffer received data)
      else ret buffer
  end.

Definition _recvall (message_size : nat) : M (list byte) :=
  recvall_loop message_size message_size 0 (repeat x00 message_size).

(** ** Python string helpers *)

Open Scope string_scope.

Definition newline : string := String (ascii_of_nat 10) EmptyString.

(** Decimal digits of [n], most significant first, prepended to [acc]. *)
Fixpoint dec_digits (fuel : nat) (n : N) (acc : string) : string :=
  match fuel with
  | O => acc
  | S fuel' =>
      let acc' := String (ascii_of_N (48 + N.modulo n 10)) acc in
      if (n <? 10)%N then acc' else dec_digits fuel' (N.div n 10) acc'
  end.

(** [str(n)] for a non-negative Python [int]. *)
Definition str_N (n : N) : string := dec_digits (S (N.size_nat n)) n "".

(** [str(z)] for a Python [int]. *)
Definition str_Z (z : Z) : string :=
  if (z <? 0)%Z then "-" ++ str_N (Z.to_N (- z)) else str_N (Z.to_N z).

(** ["{}".format(o)]. *)
Definition py_format (o : pyobj) : string :=
  match o with PyInt z => str_Z z | PyStr s => s end.

(** [sep.join(xs)]. *)
Fixpoint py_join (sep : string) (xs : list string) : string :=
  match xs with
  | [] => ""
  | [x] => x
  | x :: rest => x ++ sep ++ py_join sep rest
  end.

(** [s.encode("ascii")]. *)
Definition encode_ascii (s : string) : outcome (list byte) :=
  if forallb (fun c => Nat.ltb (nat_of_ascii c) 128) (list_ascii_of_string s)
  then Ok (list_byte_of_string s) else Err UnicodeEncodeError.

(** [bytes.decode("utf-8", "replace")] as CPython implements it: a Python
    [str] is its list of code points; each maximal ill-formed subpart is
    replaced by one U+FFFD.  The function is total: decoding never raises. *)
Definition REPLACEMENT_CHARACTER : Z := 65533.

Definition bval (b : byte) : Z := Z.of_nat (Byte.to_nat b).

Definition in_range (lo hi : Z) (b : byte) : bool :=
  ((lo <=? bval b) && (bval b <=? hi))%Z.

(** Number of continuation bytes announced by a lead byte and the range
    allowed for the first of them. *)
Definition utf8_lead (c : Z) : option (nat * Z * Z) :=
  if ((194 <=? c) && (c <=? 223))%Z then Some (1%nat, 128, 191)%Z
  else if (c =? 224)%Z then Some (2%nat, 160, 191)%Z
  else if ((225 <=? c) && (c <=? 236))%Z then Some (2%nat, 128, 191)%Z
  else if (c =? 237)%Z then Some (2%nat, 128, 159)%Z
  else if ((238 <=? c) && (c <=? 239))%Z then Some (2%nat, 128, 191)%Z
  else if (c =? 240)%Z then Some (3%nat, 144, 191)%Z
  else if ((241 <=? c) && (c <=? 243))%Z then Some (3%nat, 128, 191)%Z
  else if (c =? 244)%Z then Some (3%nat, 128, 143)%Z
  else None.

Definition cont_bits (b : byte) : Z := Z.land (bval b) 63.

Fixpoint utf8_decode_replace (bs : list byte) : list Z :=
  match bs with
  | [] => []
  | b :: rest =>
      let c := bval b in
      if (c <? 128)%Z then c :: utf8_decode_replace rest else
      match utf8_lead c with
      | None => REPLACEMENT_CHARACTER :: utf8_decode_replace rest
      | Some (n, lo, hi) =>
          match rest with
          | [] => [REPLACEMENT_CHARACTER]
          | b1 :: rest1 =>
              if negb (in_range lo hi b1)
              then REPLACEMENT_CHARACTER :: utf8_decode_replace rest else
              match n with
              | 1%nat =>
                  Z.lor (Z.shiftl (Z.land c 31) 6) (cont_bits b1)
                  :: utf8_decode_replace rest1
              | _ =>
                  match rest1 with
                  | [] => [REPLACEMENT_CHARACTER]
                  | b2 :: rest2 =>
                      if negb (in_range 128 191 b2)
                      then REPLACEMENT_CHARACTER :: utf8_decode_replace rest1 else
                      match n with
                      | 2%nat =>
                          Z.lor (Z.shiftl (Z.land c 15) 12)
                            (Z.lor (Z.shiftl (cont_bits b1) 6) (cont_bits b2))
                          :: utf8_decode_replace rest2
                      | _ =>
                          match rest2 with
                          | [] => [REPLACEMENT_CHARACTER]
                          | b3 :: rest3 =>
                              if negb (in_range 128 191 b3)
                              then REPLACEMENT_CHARACTER :: utf8_decode_replace rest2
                              else Z.lor (Z.shiftl (Z.land c 7) 18)
                                     (Z.lor (Z.shiftl (cont_bits b1) 12)
                                        (Z.lor (Z.shiftl (cont_bits b2) 6) (cont_bits b3)))
                                   :: utf8_decode_replace rest3
                          end
                      end
                  end
              end
          end
      end
  end.

Close Scope string_scope.

(** ** Validation of the [ranges] argument *)

Definition eslOK : Z := 0.

(** Iterating a Python object typed [list]: [None] is not iterable. *)
Definition py_iter {A} (o : option (list A)) : outcome (list A) :=
  match o with
  | None => Err (TypeError "'NoneType' object is not iterable")
  | Some l => Ok l
  end.

Definition py_isinstance_int (o : pyobj) : bool :=
  match o with PyInt _ => true | PyStr _ => false end.

(** Lines 196-202 of [_client]:
<<
        if ranges is not None and len(ranges) < 1:
            raise ValueError(...)
        elif any(len(r) != 2 for r in ranges):
            raise ValueError(...)
        elif not all(isinstance(r[0], int) and isinstance(r[1], int) for r in ranges):
            raise TypeError(...)
>> *)
Definition check_ranges (ranges : option (list (list pyobj))) : M unit :=
  match ranges with
  | Some [] => raise (ValueError "At least one range is needed for the `ranges` argument")
  | _ =>
      rs <- lift (py_iter ranges) ;;
      if existsb (fun r => negb (length r =? 2)) rs
      then raise (ValueError "`ranges` must be a list of two-element tuples")
      else
        rs <- lift (py_iter ranges) ;;
        if negb (forallb (fun r => py_isinstance_int (nth 0 r (PyStr ""))
                                   && py_isinstance_int (nth 1 r (PyStr ""))) rs)
        then raise (TypeError "`ranges` must be a list where elements are 2-tuples of int")
        else ret tt
  end.

(** ** The request line *)

Inductive p7_pipemodes_e : Type :=
| p7_SEARCH_SEQS
| p7_SCAN_MODELS.

(** ["{}..{}".format( *r)]. *)
Definition format_range (r : list pyobj) : string :=
  (py_format (nth 0 r (PyStr "")) ++ ".." ++ py_format (nth 1 r (PyStr "")))%string.

(** Lines 211-219 of [_client]: the text given to [sendall], before
    [.encode("ascii")]. *)
Definition request_line (mode : p7_pipemodes_e) (db : N)
    (ranges : option (list (list pyobj))) (options : string) : string :=
  match mode with
  | p7_SEARCH_SEQS =>
      let options :=
        match ranges with
        | Some rs => ("--seqdb_ranges " ++ py_join "," (map format_range rs)
                       ++ " " ++ options)%string
        | None => options
        end in
      ("@--seqdb " ++ str_N db ++ " " ++ options ++ newline)%string
  | p7_SCAN_MODELS =>
      ("@--hmmdb " ++ str_N db ++ " " ++ options ++ newline)%string
  end.

(** ** The records of libhmmer used by the client *)

(** [HMMD_SEARCH_STATUS]. *)
Record HMMD_SEARCH_STATUS : Type := mkStatus {
  st_status   : Z;
  st_msg_size : nat
}.

(** [HMMD_SEARCH_STATS]; [double] fields are kept as their 64-bit pattern,
    which the client only copies. *)
Record HMMD_SEARCH_STATS : Type := mkStats {
  ss_nmodels     : N;
  ss_nseqs       : N;
  ss_n_past_msv  : N;
  ss_n_past_vit  : N;
  ss_n_past_fwd  : N;
  ss_Z           : N;
  ss_domZ        : N;
  ss_Z_setby     : N;
  ss_domZ_setby  : N;
  ss_nreported   : N;
  ss_nincluded   : N;
  ss_nhits       : nat;
  ss_hit_offsets : list N
}.

(** [P7_PIPELINE]: the fields written by [_client], and the rest of the
    configuration, seen through [Pipeline.arguments()]. *)
Record P7_PIPELINE : Type := mkPipeline {
  pli_mode       : p7_pipemodes_e;
  pli_nmodels    : N;
  pli_nseqs      : N;
  pli_n_past_msv : N;
  pli_n_past_vit : N;
  pli_n_past_fwd : N;
  pli_Z          : N;
  pli_domZ       : N;
  pli_Z_setby    : N;
  pli_domZ_setby : N;
  pli_arguments  : list string
}.

(** Lines 254-266: [memcpy(&hits._pli, pli._pli, ...)] and the copy of the
    search statistics. *)
Definition copy_stats (pli : P7_PIPELINE) (mode : p7_pipemodes_e)
    (s : HMMD_SEARCH_STATS) : P7_PIPELINE :=
  mkPipeline mode (ss_nmodels s) (ss_nseqs s) (ss_n_past_msv s) (ss_n_past_vit s)
    (ss_n_past_fwd s) (ss_Z s) (ss_domZ s) (ss_Z_setby s) (ss_domZ_setby s)
    (pli_arguments pli).

(** [lst[i] = x] on a C array of [length lst] slots. *)
Fixpoint set_nth {A} (l : list A) (i : nat) (x : A) : list A :=
  match l, i with
  | [], _ => []
  | _ :: t, O => x :: t
  | y :: t, S i' => y :: set_nth t i' x
  end.

(** [realloc(p, n * sizeof(T))]: the first slots are kept, the new ones are
    uninitialised ([None]). *)
Definition realloc {A} (l : list (option A)) (n : nat) : list (option A) :=
  firstn n (l ++ repeat None n).

(** ** [Client._client] *)

Section Client.

(** The query object and its binary serialization, [query.write(fh)]. *)
Context {Query : Type}.
Variable query_write : Query -> list byte.

(** [P7_HIT] and the libhmmer deserializers: each reads the buffer at an
    offset and returns a status code, the advanced offset and the record.
    Before [p7_hit_Deserialize] the client sets the [name], [acc], [desc]
    and [dcl] pointers of the slot to [NULL], so the record it produces does
    not depend on the slot's previous content. *)
Context {P7_HIT : Type}.
Variable HMMD_SEARCH_STATUS_SERIAL_SIZE : nat.
Variable hmmd_search_status_Deserialize :
  list byte -> nat -> Z * nat * HMMD_SEARCH_STATUS.
Variable p7_hmmd_search_stats_Deserialize :
  list byte -> nat -> Z * nat * HMMD_SEARCH_STATS.
Variable p7_hit_Deserialize : list byte -> nat -> Z * nat * P7_HIT.

(** [P7_TOPHITS]: [unsrt] is the array of hit records, [hit] the array of
    pointers of the sorted view, each pointer being an index into [unsrt];
    [None] is an uninitialised slot. *)
Record P7_TOPHITS : Type := mkTopHitsC {
  th_N                    : nat;
  th_unsrt                : list (option P7_HIT);
  th_hit                  : list (option nat);
  th_nreported            : N;
  th_nincluded            : N;
  th_is_sorted_by_seqidx  : bool;
  th_is_sorted_by_sortkey : bool
}.

Record TopHits : Type := mkTopHits {
  _th  : P7_TOPHITS;
  _pli : P7_PIPELINE
}.

(** [TopHits()], i.e. [p7_tophits_Create()]: room for 100 hits, none stored. *)
Definition p7_tophits_Create : P7_TOPHITS :=
  mkTopHitsC 0 (repeat None 100) (repeat None 100) 0 0 false true.

Definition pipeline_zero : P7_PIPELINE :=
  mkPipeline p7_SEARCH_SEQS 0 0 0 0 0 0 0 0 0 [].

Definition TopHits_new : TopHits := mkTopHits p7_tophits_Create pipeline_zero.

(** Lines 257-280: the statistics copied into [hits._th], and the arrays
    reallocated to [nhits] slots when [nhits > 0]. *)
Definition init_tophits (th : P7_TOPHITS) (s : HMMD_SEARCH_STATS) : P7_TOPHITS :=
  let unsrt := if 0 <? ss_nhits s then realloc (th_unsrt th) (ss_nhits s) else th_unsrt th in
  let hit := if 0 <? ss_nhits s then realloc (th_hit th) (ss_nhits s) else th_hit th in
  mkTopHitsC (ss_nhits s) unsrt hit (ss_nreported s) (ss_nincluded s) false true.

(** [hits._th.unsrt[i] = h; hits._th.hit[i] = &hits._th.unsrt[i]]. *)
Definition store_hit (th : P7_TOPHITS) (i : nat) (h : P7_HIT) : P7_TOPHITS :=
  mkTopHitsC (th_N th) (set_nth (th_unsrt th) i (Some h)) (set_nth (th_hit th) i (Some i))
    (th_nreported th) (th_nincluded th) (th_is_sorted_by_seqidx th)
    (th_is_sorted_by_sortkey th).

(** [buf_offset - hits_start] on [uint32_t]. *)
Definition offset_found (buf_offset hits_start : nat) : Z :=
  Z.modulo (Z.of_nat buf_offset - Z.of_nat hits_start) (2 ^ 32).

(** Lines 284-302: [for i in range(nhits)], from index [i] with [count]
    iterations left. *)
Fixpoint deserialize_hits (response : list byte) (hits_start : nat)
    (hit_offsets : list N) (i count : nat) (buf_offset : nat)
    (th : P7_TOPHITS) : M P7_TOPHITS :=
  match count with
  | O => ret th
  | S count' =>
      let expected := nth i hit_offsets 0%N in
      let found := offset_found buf_offset hits_start in
      (if Z.eqb found (Z.of_N expected) then ret tt
       else warn (HitOffsetWarning i expected found)) ;;;
      let '(status, buf_offset', h) := p7_hit_Deserialize response buf_offset in
      if negb (Z.eqb status eslOK)
      then raise (UnexpectedError status "p7_hit_Deserialize")
      else deserialize_hits response hits_start hit_offsets (S i) count' buf_offset'
             (store_hit th i h)
  end.

Definition _client (query : Query) (db : N) (ranges : option (list (list pyobj)))
    (pli : P7_PIPELINE) (mode : p7_pipemodes_e) : M TopHits :=
  let hits := TopHits_new in
  let options := py_join "" (pli_arguments pli) in
  check_ranges ranges ;;;
  line <- lift (encode_ascii (request_line mode db ranges options)) ;;
  sendall line ;;;
  sendall (query_write query) ;;;
  sendall (list_byte_of_string "//") ;;;
  response <- _recvall HMMD_SEARCH_STATUS_SERIAL_SIZE ;;
  let '(status, _, search_status) := hmmd_search_status_Deserialize response 0 in
  if negb (Z.eqb status eslOK)
  then raise (UnexpectedError status "hmmd_search_status_Deserialize") else
  if negb (Z.eqb (st_status search_status) eslOK) then
    error <- recv (st_msg_size search_status) ;;
    raise (ServerError (st_status search_status) (utf8_decode_replace error))
  else
  response <- _recvall (st_msg_size search_status) ;;
  let '(status, buf_offset, search_stats) :=
    p7_hmmd_search_stats_Deserialize response 0 in
  if negb (Z.eqb status eslOK)
  then raise (UnexpectedError status "p7_hmmd_search_search_stats_Deserialize") else
  let pli' := copy_stats pli mode search_stats in
  let th := init_tophits (_th hits) search_stats in
  th' <- deserialize_hits response buf_offset (ss_hit_offsets search_stats)
           0 (ss_nhits search_stats) buf_offset th ;;
  ret (mkTopHits th' pli').

(** The public methods; [pli] is [Pipeline(abc, **options)]. *)
Definition search_seq (query : Query) (db : N) (ranges : option (list (list pyobj)))
    (pli : P7_PIPELINE) : M TopHits :=
  _client query db ranges pli p7_SEARCH_SEQS.

Definition search_msa (query : Query) (db : N) (ranges : option (list (list pyobj)))
    (pli : P7_PIPELINE) : M TopHits :=
  _client query db ranges pli p7_SEARCH_SEQS.

Definition search_hmm (query : Query) (db : N) (ranges : option (list (list pyobj)))
    (pli : P7_PIPELINE) : M TopHits :=
  _client query db ranges pli p7_SEARCH_SEQS.

Definition scan_seq (query : Query) (db : N) (pli : P7_PIPELINE) : M TopHits :=
  _client query db None pli p7_SCAN_MODELS.

End Client.

(** ** The hit records of a payload

    [decode_run] reads [n] hit records one after the other from [off] with
    [p7_hit_Deserialize], as the server wrote them; [decode_cursors] lists
    the offsets at which these reads start, up to the first failing one;
    [offset_mismatches] lists, for these offsets, the entries of the offset
    table they disagree with. *)

Section HitRecords.

Context {P7_HIT : Type}.
Variable p7_hit_Deserialize : list byte -> nat -> Z * nat * P7_HIT.

Fixpoint decode_run (response : list byte) (off n : nat) : option (list P7_HIT) :=
  match n with
  | O => Some []
  | S n' =>
      let '(status, off', h) := p7_hit_Deserialize response off in
      if Z.eqb status eslOK
      then option_map (cons h) (decode_run response off' n')
      else None
  end.

Fixpoint decode_cursors (response : list byte) (off n : nat) : list nat :=
  match n with
  | O => []
  | S n' =>
      off :: (let '(status, off', _) := p7_hit_Deserialize response off in
              if Z.eqb status eslOK then decode_cursors response off' n' else [])
  end.

End HitRecords.

Fixpoint offset_mismatches (hits_start : nat) (hit_offsets : list N) (i : nat)
    (cursors : list nat) : list warning :=
  match cursors with
  | [] => []
  | c :: cs =>
      let expected := nth i hit_offsets 0%N in
      let found := offset_found c hits_start in
      (if Z.eqb found (Z.of_N expected) then []
       else [HitOffsetWarning i expected found])
      ++ offset_mismatches hits_start hit_offsets (S i) cs
  end.

(** Modelled from the spec: the sorted view of a result collection
    ([TopHits.__getitem__], in [plan7.pyx], which is not part of the
    sources), "exposes sorted/unsorted views": its [i]-th item, for
    [i < N], is the record the pointer [hit[i]] designates. *)
Definition sorted_view {P7_HIT : Type} (th : P7_TOPHITS (P7_HIT:=P7_HIT))
    : list (option P7_HIT) :=
  map (fun p => match p with Some j => nth j (th_unsrt th) None | None => None end)
      (firstn (th_N th) (th_hit th)).

(** ** [Client.__init__] and [Client.__repr__] *)

Local Open Scope string_scope.

Definition DEFAULT_ADDRESS : string := "127.0.0.1".
Definition DEFAULT_PORT : N := 51371.

(** The attributes set by [__init__]; [port] is a [uint16_t]. *)
Record Client : Type := mkClient {
  address : string;
  port    : N
}.

(** Items of the Python list [args] built by [__repr__]. *)
Inductive repr_arg : Type :=
| ArgStr (s : string)
| ArgInt (n : N).

(** [sep.join(items)] on a list that may hold non-[str] items: the first
    non-[str] item raises [TypeError]. *)
Fixpoint py_join_checked (sep : string) (i : nat) (items : list repr_arg)
    : outcome string :=
  match items with
  | [] => Ok ""
  | ArgInt _ :: _ =>
      Err (TypeError ("sequence item " ++ str_N (N.of_nat i)
                      ++ ": expected str instance, int found")%string)
  | ArgStr x :: rest =>
      match rest with
      | [] => Ok x
      | _ =>
          match py_join_checked sep (S i) rest with
          | Ok r => Ok (x ++ sep ++ r)%string
          | Err e => Err e
          end
      end
  end.

(** Lines 126-137; [ty.__module__] and [ty.__name__] are [module] and
    [name]. *)
Definition Client_repr (module name : string) (self : Client) : outcome string :=
  let args := List.app
                (if negb (String.eqb (address self) DEFAULT_ADDRESS)
                 then [ArgStr (address self)] else [])
                (if negb (N.eqb (port self) DEFAULT_PORT)
                 then [ArgInt (port self)] else []) in
  match py_join_checked "" 0 args with
  | Ok joined => Ok (module ++ "." ++ name ++ "(" ++ joined ++ ")")%string
  | Err e => Err e
  end.

Local Close Scope string_scope.

(** ** A small concrete wire format, used to run the client on examples

    The status header is two bytes (status code, message size); the
    statistics block is [nhits] followed by the [nhits] offsets, one byte
    each; a hit record is one byte.  A read past the end of the buffer fails
    with status [eslEOD = 3]. *)
Module Toy.

Definition byte_at (bs : list byte) (off : nat) : option nat :=
  option_map Byte.to_nat (nth_error bs off).

Definition status_size : nat := 2.

Definition status_deser (bs : list byte) (off : nat) : Z * nat * HMMD_SEARCH_STATUS :=
  match byte_at bs off, byte_at bs (S off) with
  | Some c, Some n => (eslOK, off + 2, mkStatus (Z.of_nat c) n)
  | _, _ => (3%Z, off, mkStatus 0 0)
  end.

Definition stats_deser (bs : list byte) (off : nat) : Z * nat * HMMD_SEARCH_STATS :=
  match byte_at bs off with
  | Some n =>
      let offsets := map (fun b => N.of_nat (Byte.to_nat b)) (firstn n (skipn (S off) bs)) in
      if length offsets =? n
      then (eslOK, off + S n, mkStats 1 1 1 1 1 0 0 0 0 (N.of_nat n) (N.of_nat n) n offsets)
      else (3%Z, off, mkStats 0 0 0 0 0 0 0 0 0 0 0 0 [])
  | None => (3%Z, off, mkStats 0 0 0 0 0 0 0 0 0 0 0 0 [])
  end.

Definition hit_deser (bs : list byte) (off : nat) : Z * nat * nat :=
  match byte_at bs off with
  | Some h => (eslOK, S off, h)
  | None => (3%Z, off, 0)
  end.

Definition query_write (q : list byte) : list byte := q.

Definition pli : P7_PIPELINE := mkPipeline p7_SEARCH_SEQS 0 0 0 0 0 0 0 0 0 [].

Definition client := @_client (list byte) query_write nat status_size status_deser
                       stats_deser hit_deser.

Definition st0 (incoming : list (list byte)) : St := mkSt [] incoming [].

Definition ranges12 : option (list (list pyobj)) := Some [[PyInt 1; PyInt 2]].

(** A successful exchange: status OK with a 5-byte payload, two hits
    announced at offsets 0 and 1, hit records 7 and 9. *)
Definition incoming_ok : list (list byte) := [[x00; x05]; [x02; x00; x01; x07]; [x09]].

Definition hits_ok : @TopHits nat :=
  mkTopHits (mkTopHitsC 2 [Some 7; Some 9] [Some 0; Some 1] 2 2 false true)
    (mkPipeline p7_SEARCH_SEQS 1 1 1 1 1 0 0 0 0 []).

End Toy.

(** ** Predicates used by the statements *)

(** The peer delivers non-empty fragments (an empty read means the
    connection is closed). *)
Definition fragments_ok (frags : list (list byte)) : Prop :=
  Forall (fun f => f <> []) frags.

(** An operation that sends nothing. *)
Definition keeps_sent {A} (m : M A) : Prop :=
  forall s, sock_sent (snd (m s)) = sock_sent s.

(** ** Lemmas on [_recvall] *)

Lemma firstn_split_at {A} (k m : nat) (c : list A) :
  k <= m -> k <= length c ->
  firstn k c ++ firstn (m - k) (skipn k c) = firstn m c.
Proof.
  intros Hkm Hkc.
  rewrite <- (firstn_skipn k c) at 3.
  rewrite firstn_app, firstn_firstn, length_firstn.
  replace (Nat.min m k) with k by lia.
  replace (Nat.min k (length c)) with k by lia.
  reflexivity.
Qed.

Lemma length_write_at (b d : list byte) (r : nat) :
  r + length d <= length b -> length (write_at b r d) = length b.
Proof.
  intros H. unfold write_at.
  rewrite !length_app, length_firstn, length_skipn. lia.
Qed.

Lemma firstn_write_at (b d : list byte) (r : nat) :
  r <= length b -> firstn (r + length d) (write_at b r d) = firstn r b ++ d.
Proof.
  intros H. unfold write_at.
  rewrite app_assoc, firstn_app.
  rewrite length_app, length_firstn.
  replace (Nat.min r (length b)) with r by lia.
  replace (r + length d - (r + length d)) with 0 by lia.
  rewrite firstn_O, app_nil_r.
  apply firstn_all2. rewrite length_app, length_firstn. lia.
Qed.

Lemma recvall_loop_spec (fuel : nat) :
  forall n r b st,
    length b = n -> r <= n -> n - r <= fuel -> fragments_ok (sock_in st) ->
    (n - r <= length (concat (sock_in st)) ->
       exists st', recvall_loop fuel n r b st
                   = (Ok (firstn r b ++ firstn (n - r) (concat (sock_in st))), st')
                 /\ concat (sock_in st') = skipn (n - r) (concat (sock_in st))
                 /\ fragments_ok (sock_in st')
                 /\ sock_sent st' = sock_sent st)
    /\ (length (concat (sock_in st)) < n - r ->
       exists st', recvall_loop fuel n r b st
                   = (Err (EOFError n (r + length (concat (sock_in st)))), st')).
Proof.
  induction fuel as [|fuel IH]; intros n r b st Hb Hr Hf Hok.
  - assert (r = n) by lia. subst r.
    replace (n - n) with 0 by lia.
    split.
    + intros _. exists st. simpl. rewrite app_nil_r, <- Hb, firstn_all.
      repeat split; auto.
    + intros H. lia.
  - simpl. destruct (Nat.ltb_spec r n) as [Hlt|Hge].
    + destruct st as [sent inb ws]; simpl in *.
      unfold bind, recv_chunk; simpl.
      destruct inb as [|h t].
      * simpl. split; [intros H; lia|].
        intros _. exists (mkSt sent [] ws). rewrite Nat.add_0_r. reflexivity.
      * pose proof (Forall_inv Hok) as Hh; pose proof (Forall_inv_tail Hok) as Ht.
        set (k := Nat.min (n - r) (length h)).
        assert (Hk1 : 1 <= k).
        { destruct h; [congruence|]. simpl in k. unfold k. lia. }
        assert (Hkh : k <= length h) by (unfold k; lia).
        assert (Hlen : length (firstn k h) = k) by (rewrite length_firstn; lia).
        rewrite Hlen.
        destruct (Nat.eqb_spec k 0) as [|_]; [lia|].
        set (rest := match skipn k h with [] => t | r0 :: l => (r0 :: l) :: t end).
        assert (Hrest : concat rest = skipn k (concat (h :: t))).
        { simpl. rewrite skipn_app. replace (k - length h) with 0 by lia.
          unfold rest. destruct (skipn k h); reflexivity. }
        assert (Hrok : fragments_ok rest).
        { unfold rest. destruct (skipn k h); [assumption|constructor; [congruence|assumption]]. }
        assert (Hdata : firstn k h = firstn k (concat (h :: t))).
        { simpl. rewrite firstn_app. replace (k - length h) with 0 by lia.
          rewrite firstn_O, app_nil_r. reflexivity. }
        assert (Hc : k <= length (concat (h :: t))) by (simpl; rewrite length_app; lia).
        destruct (IH n (r + k) (write_at b r (firstn k h)) (mkSt sent rest ws))
          as [IHok IHerr].
        { rewrite length_write_at; lia. }
        { lia. }
        { lia. }
        { exact Hrok. }
        simpl in IHok, IHerr. rewrite Hrest in IHok, IHerr.
        rewrite length_skipn in IHerr.
        split.
        -- intros Henough.
           destruct IHok as (st' & Hrun & Hcat & Hok' & Hsent).
           { rewrite length_skipn. lia. }
           exists st'. split; [|split; [|split]].
           ++ rewrite Hrun. f_equal. f_equal.
              rewrite <- Hlen at 1. rewrite firstn_write_at by lia.
              rewrite <- app_assoc. f_equal.
              rewrite Hdata. replace (n - (r + k)) with (n - r - k) by lia.
              apply firstn_split_at; lia.
           ++ rewrite Hcat, skipn_skipn. f_equal. lia.
           ++ exact Hok'.
           ++ exact Hsent.
        -- intros Hshort.
           destruct IHerr as (st' & Hrun); [lia|].
           exists st'. rewrite Hrun. do 3 f_equal. lia.
    + assert (r = n) by lia. subst r. replace (n - n) with 0 by lia.
      split.
      * intros _. exists st. rewrite firstn_O, app_nil_r, <- Hb, firstn_all.
        repeat split; auto.
      * intros H; lia.
Qed.

Lemma recvall_ok_length (n : nat) (st st' : St) (buf : list byte) :
  fragments_ok (sock_in st) -> _recvall n st = (Ok buf, st') -> length buf = n.
Proof.
  intros Hok Hrun.
  destruct (recvall_loop_spec n n 0 (repeat x00 n) st) as [Hfull Hshort];
    [now rewrite repeat_length | lia | lia | exact Hok |].
  destruct (Nat.le_gt_cases n (length (concat (sock_in st)))) as [H|H].
  - destruct (Hfull ltac:(lia)) as (st'' & Hrun' & _).
    unfold _recvall in Hrun. rewrite Hrun' in Hrun. inversion Hrun; subst.
    simpl. rewrite Nat.sub_0_r, length_firstn. lia.
  - destruct (Hshort ltac:(lia)) as (st'' & Hrun').
    unfold _recvall in Hrun. rewrite Hrun' in Hrun. discriminate.
Qed.

(** ** Arrays updated by index *)

Lemma length_set_nth {A} (l : list A) i x : length (set_nth l i x) = length l.
Proof. revert i; induction l as [|y l IH]; intros [|i]; simpl; auto. Qed.

Lemma nth_error_set_nth_eq {A} (l : list A) i x :
  i < length l -> nth_error (set_nth l i x) i = Some x.
Proof.
  revert i; induction l as [|y l IH]; intros [|i] H; simpl in *; try lia; auto.
  apply IH. lia.
Qed.

Lemma nth_error_set_nth_neq {A} (l : list A) i j x :
  i <> j -> nth_error (set_nth l i x) j = nth_error l j.
Proof.
  revert i j; induction l as [|y l IH]; intros [|i] [|j] H; simpl; auto.
  all: try (exfalso; lia).
  all: apply IH; lia.
Qed.

Lemma length_realloc {A} (l : list (option A)) n : length (realloc l n) = n.
Proof. unfold realloc. rewrite length_firstn, length_app, repeat_length. lia. Qed.

(** ** The hit decoding loop *)

Section DecodeLoop.

Context {P7_HIT : Type}.
Variable p7_hit_Deserialize : list byte -> nat -> Z * nat * P7_HIT.
Variable response : list byte.
Variable hits_start : nat.

Local Abbreviation loop := (deserialize_hits p7_hit_Deserialize response hits_start).

Lemma deserialize_hits_ok (count : nat) :
  forall offs i bo th s th' s',
    loop offs i count bo th s = (Ok th', s') ->
    i + count <= length (th_unsrt th) ->
    i + count <= length (th_hit th) ->
    exists hs,
      decode_run p7_hit_Deserialize response bo count = Some hs
      /\ length hs = count
      /\ th_N th' = th_N th
      /\ th_nreported th' = th_nreported th
      /\ th_nincluded th' = th_nincluded th
      /\ th_is_sorted_by_seqidx th' = th_is_sorted_by_seqidx th
      /\ th_is_sorted_by_sortkey th' = th_is_sorted_by_sortkey th
      /\ length (th_unsrt th') = length (th_unsrt th)
      /\ length (th_hit th') = length (th_hit th)
      /\ (forall j, j < i -> nth_error (th_unsrt th') j = nth_error (th_unsrt th) j
                            /\ nth_error (th_hit th') j = nth_error (th_hit th) j)
      /\ (forall k, k < count ->
            nth_error (th_unsrt th') (i + k) = option_map Some (nth_error hs k)
            /\ nth_error (th_hit th') (i + k) = Some (Some (i + k))).
Proof.
  induction count as [|count IH]; intros offs i bo th s th' s' Hrun Hu Hh.
  - simpl in Hrun. inversion Hrun; subst.
    exists []. repeat split; auto; intros; lia.
  - simpl in Hrun. unfold bind at 1 in Hrun.
    assert (Hcore : forall s0,
      (let '(status, buf_offset', h) := p7_hit_Deserialize response bo in
       if negb (Z.eqb status eslOK)
       then raise (UnexpectedError status "p7_hit_Deserialize")
       else loop offs (S i) count buf_offset' (store_hit th i h)) s0 = (Ok th', s') ->
      exists hs, decode_run p7_hit_Deserialize response bo (S count) = Some hs
      /\ length hs = S count
      /\ th_N th' = th_N th
      /\ th_nreported th' = th_nreported th
      /\ th_nincluded th' = th_nincluded th
      /\ th_is_sorted_by_seqidx th' = th_is_sorted_by_seqidx th
      /\ th_is_sorted_by_sortkey th' = th_is_sorted_by_sortkey th
      /\ length (th_unsrt th') = length (th_unsrt th)
      /\ length (th_hit th') = length (th_hit th)
      /\ (forall j, j < i -> nth_error (th_unsrt th') j = nth_error (th_unsrt th) j
                            /\ nth_error (th_hit th') j = nth_error (th_hit th) j)
      /\ (forall k, k < S count ->
            nth_error (th_unsrt th') (i + k) = option_map Some (nth_error hs k)
            /\ nth_error (th_hit th') (i + k) = Some (Some (i + k)))).
    { intros s0 H0.
      destruct (p7_hit_Deserialize response bo) as [[status bo'] h] eqn:Hd.
      destruct (Z.eqb_spec status eslOK) as [Hst|Hst]; simpl in H0; [|discriminate].
      destruct (IH offs (S i) bo' (store_hit th i h) _ th' s' H0) as
        (hs & Hrun' & Hlen & HN & Hr & Hi & Hs1 & Hs2 & Hlu & Hlh & Hbefore & Hafter).
      { simpl; rewrite length_set_nth; lia. }
      { simpl; rewrite length_set_nth; lia. }
      simpl in *. rewrite !length_set_nth in *.
      exists (h :: hs). simpl. rewrite Hd, Hrun'.
      destruct (Z.eqb_spec status eslOK); [|contradiction].
      split; [reflexivity|]. split; [simpl; lia|].
      do 7 (split; [assumption|]).
      split.
      - intros j Hj. destruct (Hbefore j ltac:(lia)) as [E1 E2].
        rewrite E1, E2, !nth_error_set_nth_neq by lia. auto.
      - intros [|k] Hk.
        + rewrite Nat.add_0_r.
          destruct (Hbefore i ltac:(lia)) as [E1 E2]. rewrite E1, E2.
          rewrite !nth_error_set_nth_eq by lia. auto.
        + destruct (Hafter k ltac:(lia)) as [E1 E2].
          replace (i + S k) with (S i + k) by lia. auto. }
    destruct (Z.eqb _ _) in Hrun; simpl in Hrun; eapply Hcore; exact Hrun.
Qed.

End DecodeLoop.

Section Offsets.

Context {P7_HIT : Type}.
Variable p7_hit_Deserialize : list byte -> nat -> Z * nat * P7_HIT.
Variable response : list byte.
Variable hits_start : nat.

Local Abbreviation loop := (deserialize_hits p7_hit_Deserialize response hits_start).

Lemma deserialize_hits_warnings (count : nat) :
  forall i bo th, exists o, forall offs sent inb ws,
    loop offs i count bo th (mkSt sent inb ws)
    = (o, mkSt sent inb (ws ++ offset_mismatches hits_start offs i
                                 (decode_cursors p7_hit_Deserialize response bo count))).
Proof.
  induction count as [|count IH]; intros i bo th.
  - exists (Ok th). intros. simpl. rewrite app_nil_r. reflexivity.
  - simpl.
    destruct (p7_hit_Deserialize response bo) as [[status bo'] h] eqn:Hd.
    destruct (Z.eqb_spec status eslOK) as [Hst|Hst].
    + destruct (IH (S i) bo' (store_hit th i h)) as [o Ho].
      exists o. intros offs sent inb ws.
      unfold bind, warn, ret.
      destruct (Z.eqb _ _); simpl; rewrite Ho, <- ?app_assoc; reflexivity.
    + exists (Err (UnexpectedError status "p7_hit_Deserialize")).
      intros offs sent inb ws.
      unfold bind, warn, ret, raise.
      destruct (Z.eqb _ _); simpl; rewrite ?app_nil_r; reflexivity.
Qed.

End Offsets.

(** ** Operations that send nothing *)

Lemma keeps_sent_ret {A} (a : A) : keeps_sent (ret a).
Proof. intros s; reflexivity. Qed.

Lemma keeps_sent_raise {A} (e : exn) : keeps_sent (A:=A) (raise e).
Proof. intros s; reflexivity. Qed.

Lemma keeps_sent_lift {A} (o : outcome A) : keeps_sent (lift o).
Proof. destruct o; intros s; reflexivity. Qed.

Lemma keeps_sent_warn w : keeps_sent (warn w).
Proof. intros s; reflexivity. Qed.

Lemma keeps_sent_recv_chunk n : keeps_sent (recv_chunk n).
Proof. intros [sent [|h t] ws]; reflexivity. Qed.

Lemma keeps_sent_bind {A B} (m : M A) (f : A -> M B) :
  keeps_sent m -> (forall a, keeps_sent (f a)) -> keeps_sent (bind m f).
Proof.
  intros Hm Hf s. unfold bind.
  specialize (Hm s). destruct (m s) as [[a|e] s']; simpl in *.
  - rewrite Hf. exact Hm.
  - exact Hm.
Qed.

Lemma bind_ok {A B} (m : M A) (f : A -> M B) s a s' :
  m s = (Ok a, s') -> bind m f s = f a s'.
Proof. intros H. unfold bind. rewrite H. reflexivity. Qed.

Lemma bind_err {A B} (m : M A) (f : A -> M B) s e s' :
  m s = (Err e, s') -> bind m f s = (Err e, s').
Proof. intros H. unfold bind. rewrite H. reflexivity. Qed.

Ltac keeps :=
  repeat (intros; lazymatch goal with
    | |- keeps_sent (bind _ _) => apply keeps_sent_bind
    | |- keeps_sent (ret _) => apply keeps_sent_ret
    | |- keeps_sent (raise _) => apply keeps_sent_raise
    | |- keeps_sent (lift _) => apply keeps_sent_lift
    | |- keeps_sent (warn _) => apply keeps_sent_warn
    | |- keeps_sent (recv_chunk _) => apply keeps_sent_recv_chunk
    | |- keeps_sent (recv _) => apply keeps_sent_recv_chunk
    | |- keeps_sent (if ?b then _ else _) => destruct b
    | |- keeps_sent (match ?x with _ => _ end) => destruct x
    | |- keeps_sent (let '(_, _) := ?x in _) => destruct x
    | _ => idtac
    end).

Lemma keeps_sent_recvall_loop fuel n r b : keeps_sent (recvall_loop fuel n r b).
Proof.
  revert r b; induction fuel as [|fuel IH]; intros r b; simpl; keeps.
  all: try apply IH.
Qed.

Lemma keeps_sent_recvall n : keeps_sent (_recvall n).
Proof. apply keeps_sent_recvall_loop. Qed.

Lemma keeps_sent_check_ranges ranges : keeps_sent (check_ranges ranges).
Proof. unfold check_ranges. keeps. Qed.

Lemma keeps_sent_deserialize_hits {P7_HIT} (deser : list byte -> nat -> Z * nat * P7_HIT)
    response hits_start offs i count bo th :
  keeps_sent (deserialize_hits deser response hits_start offs i count bo th).
Proof.
  revert i bo th; induction count as [|count IH]; intros i bo th; simpl; keeps.
  all: try apply IH.
Qed.

Ltac keeps_all :=
  keeps;
  try apply keeps_sent_recvall;
  try apply keeps_sent_deserialize_hits;
  try apply keeps_sent_check_ranges.

(** ** Properties of [_client] *)

Section ClientProofs.

Context {Query : Type}.
Variable query_write : Query -> list byte.
Context {P7_HIT : Type}.
Variable HMMD_SEARCH_STATUS_SERIAL_SIZE : nat.
Variable hmmd_search_status_Deserialize :
  list byte -> nat -> Z * nat * HMMD_SEARCH_STATUS.
Variable p7_hmmd_search_stats_Deserialize :
  list byte -> nat -> Z * nat * HMMD_SEARCH_STATS.
Variable p7_hit_Deserialize : list byte -> nat -> Z * nat * P7_HIT.

Local Abbreviation client :=
  (_client query_write HMMD_SEARCH_STATUS_SERIAL_SIZE hmmd_search_status_Deserialize
     p7_hmmd_search_stats_Deserialize p7_hit_Deserialize).

Lemma client_sent_shape q db ranges pli mode st :
  (sock_sent (snd (client q db ranges pli mode st)) = sock_sent st
   /\ exists e, fst (client q db ranges pli mode st) = Err e)
  \/ (exists line,
        encode_ascii (request_line mode db ranges (py_join "" (pli_arguments pli))) = Ok line
        /\ sock_sent (snd (client q db ranges pli mode st))
           = sock_sent st ++ [line; query_write q; list_byte_of_string "//"]).
Proof.
  unfold _client. cbv zeta.
  pose proof (keeps_sent_check_ranges ranges st) as Hc.
  destruct (check_ranges ranges st) as [[u|e] s1] eqn:Hcr; simpl in Hc.
  - rewrite (bind_ok _ _ _ _ _ Hcr).
    destruct (encode_ascii _) as [line|e] eqn:He; simpl.
    + right. exists line. split; [reflexivity|].
      rewrite (bind_ok _ _ _ _ _ (eq_refl : ret line s1 = _)).
      rewrite (bind_ok _ _ _ _ _ (eq_refl : sendall line s1 = _)).
      rewrite (bind_ok _ _ _ _ _ (eq_refl : sendall (query_write q) _ = _)).
      rewrite (bind_ok _ _ _ _ _ (eq_refl : sendall (list_byte_of_string "//") _ = _)).
      match goal with |- sock_sent (snd (?m ?s)) = _ =>
        let Hk := fresh "Hk" in
        assert (Hk : keeps_sent m); [keeps_all | rewrite Hk] end.
      simpl. rewrite Hc, <- !app_assoc. reflexivity.
    + left. split; [exact Hc|]. exists e. reflexivity.
  - rewrite (bind_err _ _ _ _ _ Hcr). simpl.
    left. split; [exact Hc|]. exists e. reflexivity.
Qed.

Ltac crunch H :=
  repeat (cbv beta iota in H;
    lazymatch type of H with
    | bind ?m ?f ?s = _ =>
        let E := fresh "E" in
        destruct (m s) as [[?|?] ?] eqn:E;
        [rewrite (bind_ok _ _ _ _ _ E) in H
        | rewrite (bind_err _ _ _ _ _ E) in H; discriminate H]
    | (match ?x with (_, _) => _ end) _ = _ =>
        let E := fresh "D" in destruct x as [[? ?] ?] eqn:E
    | (if ?b then _ else _) _ = _ =>
        let E := fresh "B" in destruct b eqn:E
    | raise _ _ = _ => discriminate H
    | _ => fail
    end).

Lemma client_ok_inv q db ranges pli mode st hits st' :
  client q db ranges pli mode st = (Ok hits, st') ->
  exists payload bo stats s1 th',
    p7_hmmd_search_stats_Deserialize payload 0 = (eslOK, bo, stats)
    /\ deserialize_hits p7_hit_Deserialize payload bo (ss_hit_offsets stats) 0
         (ss_nhits stats) bo (init_tophits p7_tophits_Create stats) s1 = (Ok th', st')
    /\ hits = mkTopHits th' (copy_stats pli mode stats).
Proof.
  intros H. unfold _client in H. cbv zeta in H.
  crunch H.
  unfold ret in H. inversion H; subst.
  apply negb_false_iff, Z.eqb_eq in B1. subst z0.
  exists a5, n0, h0, s5, a6. repeat split; assumption.
Qed.

Lemma client_ok_hits q db ranges pli mode st hits st' :
  client q db ranges pli mode st = (Ok hits, st') ->
  exists payload bo stats hs,
    p7_hmmd_search_stats_Deserialize payload 0 = (eslOK, bo, stats)
    /\ decode_run p7_hit_Deserialize payload bo (ss_nhits stats) = Some hs
    /\ length hs = ss_nhits stats
    /\ th_N (_th hits) = ss_nhits stats
    /\ (forall k, k < ss_nhits stats ->
          nth_error (th_unsrt (_th hits)) k = option_map Some (nth_error hs k)
          /\ nth_error (th_hit (_th hits)) k = Some (Some k))
    /\ th_is_sorted_by_sortkey (_th hits) = true
    /\ th_is_sorted_by_seqidx (_th hits) = false.
Proof.
  intros H.
  destruct (client_ok_inv _ _ _ _ _ _ _ _ H)
    as (payload & bo & stats & s1 & th' & Hstats & Hloop & ->).
  assert (Hlen : ss_nhits stats <= length (th_unsrt (init_tophits (P7_HIT:=P7_HIT) p7_tophits_Create stats))
              /\ ss_nhits stats <= length (th_hit (init_tophits (P7_HIT:=P7_HIT) p7_tophits_Create stats))).
  { unfold init_tophits. simpl.
    destruct (Nat.ltb_spec 0 (ss_nhits stats)); rewrite ?length_realloc; lia. }
  destruct Hlen as [Hu Hh].
  destruct (deserialize_hits_ok _ _ _ _ _ _ _ _ _ _ _ Hloop Hu Hh)
    as (hs & Hrun & Hl & HN & _ & _ & Hs1 & Hs2 & _ & _ & _ & Hafter).
  exists payload, bo, stats, hs. simpl in *.
  split; [exact Hstats|]. split; [exact Hrun|]. split; [exact Hl|].
  split; [exact HN|]. split; [exact Hafter|]. split; assumption.
Qed.

Lemma client_sent_when_valid q db ranges pli mode st line :
  check_ranges ranges st = (Ok tt, st) ->
  encode_ascii (request_line mode db ranges (py_join "" (pli_arguments pli))) = Ok line ->
  sock_sent (snd (client q db ranges pli mode st))
  = sock_sent st ++ [line; query_write q; list_byte_of_string "//"].
Proof.
  intros Hcr He.
  unfold _client. cbv zeta.
  rewrite (bind_ok _ _ _ _ _ Hcr).
  rewrite He. simpl.
  rewrite (bind_ok _ _ _ _ _ (eq_refl : ret line st = _)).
  rewrite (bind_ok _ _ _ _ _ (eq_refl : sendall line st = _)).
  rewrite (bind_ok _ _ _ _ _ (eq_refl : sendall (query_write q) _ = _)).
  rewrite (bind_ok _ _ _ _ _ (eq_refl : sendall (list_byte_of_string "//") _ = _)).
  match goal with |- sock_sent (snd (?m ?s)) = _ =>
    let Hk := fresh "Hk" in
    assert (Hk : keeps_sent m); [keeps_all | rewrite Hk] end.
  simpl. rewrite <- !app_assoc. reflexivity.
Qed.

Lemma offset_mismatches_sound hits_start offs i cursors j e f :
  In (HitOffsetWarning j e f) (offset_mismatches hits_start offs i cursors) ->
  f <> Z.of_N e.
Proof.
  revert i; induction cursors as [|c cs IH]; intros i Hin; simpl in Hin; [contradiction|].
  apply in_app_or in Hin as [Hin|Hin].
  - destruct (Z.eqb_spec (offset_found c hits_start) (Z.of_N (nth i offs 0%N))) as [_|Hne];
      simpl in Hin; [contradiction|].
    destruct Hin as [Hw|[]]. inversion Hw; subst. exact Hne.
  - eapply IH; exact Hin.
Qed.

End ClientProofs.

Lemma sorted_view_identity {P7_HIT : Type} (th : P7_TOPHITS (P7_HIT:=P7_HIT)) hs :
  length hs = th_N th ->
  (forall k, k < th_N th ->
     nth_error (th_unsrt th) k = option_map Some (nth_error hs k)
     /\ nth_error (th_hit th) k = Some (Some k)) ->
  sorted_view th = map Some hs.
Proof.
  intros Hl Hk. unfold sorted_view.
  apply nth_error_ext. intros k.
  rewrite !nth_error_map, nth_error_firstn.
  destruct (Nat.ltb_spec k (th_N th)) as [Hlt|Hge].
  - destruct (Hk k Hlt) as [Eu Eh]. rewrite Eh. simpl.
    destruct (nth_error hs k) as [h|] eqn:Ehs.
    + simpl in *. apply nth_error_nth with (d := None) in Eu. rewrite Eu. reflexivity.
    + apply nth_error_None in Ehs. lia.
  - simpl. assert (nth_error hs k = None) as -> by (apply nth_error_None; lia).
    reflexivity.
Qed.

(** * The claims *)

Section Claims.

Context {Query : Type}.
Variable query_write : Query -> list byte.
Context {P7_HIT : Type}.
Variable HMMD_SEARCH_STATUS_SERIAL_SIZE : nat.
Variable hmmd_search_status_Deserialize :
  list byte -> nat -> Z * nat * HMMD_SEARCH_STATUS.
Variable p7_hmmd_search_stats_Deserialize :
  list byte -> nat -> Z * nat * HMMD_SEARCH_STATS.
Variable p7_hit_Deserialize : list byte -> nat -> Z * nat * P7_HIT.

Local Abbreviation client :=
  (_client query_write HMMD_SEARCH_STATUS_SERIAL_SIZE hmmd_search_status_Deserialize
     p7_hmmd_search_stats_Deserialize p7_hit_Deserialize).

(** C1: when no [ranges] argument is given ([None], the default of the
    search methods and the only value [scan_seq] passes), the validation
    step does not succeed: iterating [None] in [any(len(r) != 2 for r in
    ranges)] raises [TypeError], and nothing is sent. *)
Theorem client_ranges_none_raises (q : Query) (db : N) (pli : P7_PIPELINE) (st : St) :
  (forall mode, client q db None pli mode st
                = (Err (TypeError "'NoneType' object is not iterable"), st))
  /\ scan_seq query_write HMMD_SEARCH_STATUS_SERIAL_SIZE hmmd_search_status_Deserialize
       p7_hmmd_search_stats_Deserialize p7_hit_Deserialize q db pli st
     = (Err (TypeError "'NoneType' object is not iterable"), st)
  /\ search_seq query_write HMMD_SEARCH_STATUS_SERIAL_SIZE hmmd_search_status_Deserialize
       p7_hmmd_search_stats_Deserialize p7_hit_Deserialize q db None pli st
     = (Err (TypeError "'NoneType' object is not iterable"), st).
Proof.
  split; [|split]; [intros mode| |]; reflexivity.
Qed.

(** C8: [ranges=[]] raises [ValueError] before any byte is sent: the socket
    is left as it was, in particular no send call is recorded. *)
Theorem client_empty_ranges_no_send (q : Query) (db : N) (pli : P7_PIPELINE)
    (mode : p7_pipemodes_e) (st : St) :
  client q db (Some []) pli mode st
  = (Err (ValueError "At least one range is needed for the `ranges` argument"), st).
Proof. reflexivity. Qed.

(** C9: whatever the outcome of a call, the bytes sent on the socket are
    either nothing (the call failed before sending) or exactly the request
    line, then the serialized query, then the two bytes [//]. *)
Theorem client_request_framing (q : Query) db ranges pli mode st :
  (sock_sent (snd (client q db ranges pli mode st)) = sock_sent st
   /\ exists e, fst (client q db ranges pli mode st) = Err e)
  \/ (exists line,
        encode_ascii (request_line mode db ranges (py_join "" (pli_arguments pli))) = Ok line
        /\ sock_sent (snd (client q db ranges pli mode st))
           = sock_sent st ++ [line; query_write q; list_byte_of_string "//"]).
Proof. apply client_sent_shape. Qed.

(** C2: a call that returns a result collection has decoded exactly
    [nhits] hit records, [nhits] being the count of the Statistics Block
    decoded from the payload: the stored count [N] is [nhits], the [nhits]
    consecutive reads of [p7_hit_Deserialize] from the start of the hit
    region all succeed, and the first [nhits] slots of [unsrt] hold exactly
    these records. *)
Theorem client_hit_count (q : Query) db ranges pli mode st (hits : TopHits) :
  fst (client q db ranges pli mode st) = Ok hits ->
  exists payload bo stats hs,
    p7_hmmd_search_stats_Deserialize payload 0 = (eslOK, bo, stats)
    /\ th_N (_th hits) = ss_nhits stats
    /\ decode_run p7_hit_Deserialize payload bo (ss_nhits stats) = Some hs
    /\ length hs = ss_nhits stats
    /\ firstn (ss_nhits stats) (th_unsrt (_th hits)) = map Some hs.
Proof.
  intros H. destruct (client q db ranges pli mode st) as [o st'] eqn:E.
  simpl in H. subst o.
  destruct (client_ok_hits _ _ _ _ _ _ _ _ _ _ _ _ _ E)
    as (payload & bo & stats & hs & Hs & Hrun & Hl & HN & Hk & _ & _).
  exists payload, bo, stats, hs.
  split; [exact Hs|]. split; [exact HN|]. split; [exact Hrun|]. split; [exact Hl|].
  apply nth_error_ext. intros k.
  rewrite nth_error_firstn, nth_error_map.
  destruct (Nat.ltb_spec k (ss_nhits stats)) as [Hlt|Hge].
  - apply (Hk k Hlt).
  - assert (nth_error hs k = None) as -> by (apply nth_error_None; lia).
    reflexivity.
Qed.

(** C6: every result collection returned by a call is flagged sorted by
    key and not sorted by target index; the two flags are never both set. *)
Theorem client_sorted_flags (q : Query) db ranges pli mode st (hits : TopHits) :
  fst (client q db ranges pli mode st) = Ok hits ->
  th_is_sorted_by_sortkey (_th hits) = true
  /\ th_is_sorted_by_seqidx (_th hits) = false
  /\ ~ (th_is_sorted_by_sortkey (_th hits) = true
         /\ th_is_sorted_by_seqidx (_th hits) = true).
Proof.
  intros H. destruct (client q db ranges pli mode st) as [o st'] eqn:E.
  simpl in H. subst o.
  destruct (client_ok_hits _ _ _ _ _ _ _ _ _ _ _ _ _ E)
    as (payload & bo & stats & hs & _ & _ & _ & _ & _ & Hk & Hi).
  rewrite Hk, Hi. split; [reflexivity|]. split; [reflexivity|].
  intros [_ C]. discriminate C.
Qed.

(** C10: in a returned collection, the [i]-th pointer of the sorted view
    designates the [i]-th record of [unsrt] for every [i < nhits], so the
    sorted view lists the hits in the order the server sent them (the order
    of the successive reads of the hit region). *)
Theorem client_hit_pointers_identity (q : Query) db ranges pli mode st (hits : TopHits) :
  fst (client q db ranges pli mode st) = Ok hits ->
  (forall i, i < th_N (_th hits) -> nth_error (th_hit (_th hits)) i = Some (Some i))
  /\ exists payload bo stats hs,
       p7_hmmd_search_stats_Deserialize payload 0 = (eslOK, bo, stats)
       /\ decode_run p7_hit_Deserialize payload bo (ss_nhits stats) = Some hs
       /\ sorted_view (_th hits) = map Some hs.
Proof.
  intros H. destruct (client q db ranges pli mode st) as [o st'] eqn:E.
  simpl in H. subst o.
  destruct (client_ok_hits _ _ _ _ _ _ _ _ _ _ _ _ _ E)
    as (payload & bo & stats & hs & Hs & Hrun & Hl & HN & Hk & _ & _).
  split.
  - intros i Hi. rewrite HN in Hi. apply (Hk i Hi).
  - exists payload, bo, stats, hs.
    split; [exact Hs|]. split; [exact Hrun|].
    apply sorted_view_identity.
    + congruence.
    + rewrite HN. exact Hk.
Qed.

(** C4 (as the code does it): with [db = 3], [ranges = [(10,20),(30,40)]]
    and an empty option string, the request line sent is
    [@--seqdb 3 --seqdb_ranges 10..20,30..40 ] followed by a newline: the
    separator space before the (empty) options stays before the newline. *)
Theorem request_line_example (q : Query) (pli : P7_PIPELINE) (st : St)
    (Hopts : pli_arguments pli = []) :
  sock_sent (snd (client q 3 (Some [[PyInt 10; PyInt 20]; [PyInt 30; PyInt 40]])
                    pli p7_SEARCH_SEQS st))
  = sock_sent st
    ++ [list_byte_of_string ("@--seqdb 3 --seqdb_ranges 10..20,30..40 " ++ newline);
        query_write q; list_byte_of_string "//"].
Proof.
  apply client_sent_when_valid.
  - reflexivity.
  - rewrite Hopts. reflexivity.
Qed.

End Claims.

(** C3: [_recvall n] returns exactly the first [n] bytes the peer delivers
    when at least [n] bytes arrive before the connection closes, whatever
    the fragmentation; when the peer closes after [k < n] bytes it raises
    [EOFError]; it never returns a buffer of another length than [n]. *)
Theorem recvall_exact (n : nat) (st : St) (Hfr : fragments_ok (sock_in st)) :
  (n <= length (concat (sock_in st)) ->
     exists st', _recvall n st = (Ok (firstn n (concat (sock_in st))), st'))
  /\ (length (concat (sock_in st)) < n ->
     exists st', _recvall n st = (Err (EOFError n (length (concat (sock_in st)))), st'))
  /\ (forall buf st', _recvall n st = (Ok buf, st') -> length buf = n).
Proof.
  destruct (recvall_loop_spec n n 0 (repeat x00 n) st) as [Hfull Hshort];
    [now rewrite repeat_length | lia | lia | exact Hfr |].
  rewrite Nat.sub_0_r in Hfull, Hshort. simpl in Hfull, Hshort.
  split; [|split].
  - intros H. destruct (Hfull H) as (st' & Hrun & _). exists st'. exact Hrun.
  - intros H. exact (Hshort H).
  - intros buf st'. apply recvall_ok_length. exact Hfr.
Qed.

(** C7: an offset-table entry that disagrees with the decoder's cursor only
    adds a warning: the outcome of the loop of lines 284-302 (the hits it
    stores, or the error it raises) is the same for every offset table, the
    cursor used is the decoder's own ([decode_cursors]), and one warning is
    emitted for each cursor that disagrees with its table entry. *)
Theorem hit_offset_mismatch_nonfatal {P7_HIT : Type}
    (p7_hit_Deserialize : list byte -> nat -> Z * nat * P7_HIT)
    (response : list byte) (hits_start i count bo : nat) (th : P7_TOPHITS) :
  (exists o, forall offs sent inb ws,
     deserialize_hits p7_hit_Deserialize response hits_start offs i count bo th
       (mkSt sent inb ws)
     = (o, mkSt sent inb (ws ++ offset_mismatches hits_start offs i
                                 (decode_cursors p7_hit_Deserialize response bo count))))
  /\ (forall offs j e f,
        In (HitOffsetWarning j e f)
           (offset_mismatches hits_start offs i
              (decode_cursors p7_hit_Deserialize response bo count)) ->
        f <> Z.of_N e).
Proof.
  split.
  - apply deserialize_hits_warnings.
  - intros offs j e f. apply offset_mismatches_sound.
Qed.

(** C4: the request line for [db = 3], [ranges = [(10,20),(30,40)]] and no
    option is not [@--seqdb 3 --seqdb_ranges 10..20,30..40] followed
    directly by a newline. *)
Lemma request_line_example_not_exact :
  hd [] (sock_sent (snd (Toy.client [] 3
                           (Some [[PyInt 10; PyInt 20]; [PyInt 30; PyInt 40]])
                           Toy.pli p7_SEARCH_SEQS (Toy.st0 []))))
  <> list_byte_of_string ("@--seqdb 3 --seqdb_ranges 10..20,30..40" ++ newline).
Proof. vm_compute. discriminate. Qed.

(** C5: when the status header reports an error with a 42-byte message and
    the peer delivers the message in two segments of 20 and 22 bytes, the
    single [socket.recv(42)] returns only the first 20 bytes: [ServerError]
    carries a 20-character message and the other 22 bytes stay unread in
    the socket. *)
Theorem server_error_short_read :
  Toy.client [] 1 Toy.ranges12 Toy.pli p7_SEARCH_SEQS
    (Toy.st0 [[x07; x2a]; repeat x61 20; repeat x62 22])
  = (Err (ServerError 7 (repeat 97%Z 20)),
     mkSt [list_byte_of_string ("@--seqdb 1 --seqdb_ranges 1..2 " ++ newline);
           []; list_byte_of_string "//"]
          [repeat x62 22] [])
  /\ length (repeat 97%Z 20) <> 42.
Proof. split; [vm_compute; reflexivity | simpl; discriminate]. Qed.

(** ** Witnesses *)

Lemma recvall_exact_witness :
  fragments_ok [[x01; x02]; [x03]; [x04; x05; x06]]
  /\ ((4 <= length (concat (sock_in (Toy.st0 [[x01; x02]; [x03]; [x04; x05; x06]]))) ->
        exists st', _recvall 4 (Toy.st0 [[x01; x02]; [x03]; [x04; x05; x06]])
                    = (Ok (firstn 4 (concat (sock_in
                            (Toy.st0 [[x01; x02]; [x03]; [x04; x05; x06]])))), st'))
      /\ (length (concat (sock_in (Toy.st0 [[x01; x02]; [x03]; [x04; x05; x06]]))) < 4 ->
        exists st', _recvall 4 (Toy.st0 [[x01; x02]; [x03]; [x04; x05; x06]])
                    = (Err (EOFError 4 (length (concat (sock_in
                            (Toy.st0 [[x01; x02]; [x03]; [x04; x05; x06]]))))), st'))
      /\ (forall buf st', _recvall 4 (Toy.st0 [[x01; x02]; [x03]; [x04; x05; x06]])
                           = (Ok buf, st') -> length buf = 4)).
Proof.
  assert (H : fragments_ok [[x01; x02]; [x03]; [x04; x05; x06]])
    by (repeat constructor; discriminate).
  split; [exact H|].
  exact (recvall_exact 4 (Toy.st0 [[x01; x02]; [x03]; [x04; x05; x06]]) H).
Defined.

Lemma client_hit_count_witness :
  fst (Toy.client [x41] 3 Toy.ranges12 Toy.pli p7_SEARCH_SEQS (Toy.st0 Toy.incoming_ok))
    = Ok Toy.hits_ok
  /\ exists payload bo stats hs,
       Toy.stats_deser payload 0 = (eslOK, bo, stats)
       /\ th_N (_th Toy.hits_ok) = ss_nhits stats
       /\ decode_run Toy.hit_deser payload bo (ss_nhits stats) = Some hs
       /\ length hs = ss_nhits stats
       /\ firstn (ss_nhits stats) (th_unsrt (_th Toy.hits_ok)) = map Some hs.
Proof.
  split; [vm_compute; reflexivity|].
  apply (client_hit_count Toy.query_write Toy.status_size Toy.status_deser
           Toy.stats_deser Toy.hit_deser [x41] 3 Toy.ranges12 Toy.pli p7_SEARCH_SEQS
           (Toy.st0 Toy.incoming_ok) Toy.hits_ok).
  vm_compute. reflexivity.
Defined.

Lemma client_sorted_flags_witness :
  fst (Toy.client [x41] 3 Toy.ranges12 Toy.pli p7_SEARCH_SEQS (Toy.st0 Toy.incoming_ok))
    = Ok Toy.hits_ok
  /\ th_is_sorted_by_sortkey (_th Toy.hits_ok) = true
  /\ th_is_sorted_by_seqidx (_th Toy.hits_ok) = false
  /\ ~ (th_is_sorted_by_sortkey (_th Toy.hits_ok) = true
        /\ th_is_sorted_by_seqidx (_th Toy.hits_ok) = true).
Proof.
  split; [vm_compute; reflexivity|].
  apply (client_sorted_flags Toy.query_write Toy.status_size Toy.status_deser
           Toy.stats_deser Toy.hit_deser [x41] 3 Toy.ranges12 Toy.pli p7_SEARCH_SEQS
           (Toy.st0 Toy.incoming_ok) Toy.hits_ok).
  vm_compute. reflexivity.
Defined.

Lemma client_hit_pointers_identity_witness :
  fst (Toy.client [x41] 3 Toy.ranges12 Toy.pli p7_SEARCH_SEQS (Toy.st0 Toy.incoming_ok))
    = Ok Toy.hits_ok
  /\ (forall i, i < th_N (_th Toy.hits_ok) ->
        nth_error (th_hit (_th Toy.hits_ok)) i = Some (Some i))
  /\ exists payload bo stats hs,
       Toy.stats_deser payload 0 = (eslOK, bo, stats)
       /\ decode_run Toy.hit_deser payload bo (ss_nhits stats) = Some hs
       /\ sorted_view (_th Toy.hits_ok) = map Some hs.
Proof.
  split; [vm_compute; reflexivity|].
  apply (client_hit_pointers_identity Toy.query_write Toy.status_size Toy.status_deser
           Toy.stats_deser Toy.hit_deser [x41] 3 Toy.ranges12 Toy.pli p7_SEARCH_SEQS
           (Toy.st0 Toy.incoming_ok) Toy.hits_ok).
  vm_compute. reflexivity.
Defined.

Lemma request_line_example_witness :
  pli_arguments Toy.pli = []
  /\ sock_sent (snd (Toy.client [x41] 3 (Some [[PyInt 10; PyInt 20]; [PyInt 30; PyInt 40]])
                       Toy.pli p7_SEARCH_SEQS (Toy.st0 [])))
     = sock_sent (Toy.st0 [])
       ++ [list_byte_of_string ("@--seqdb 3 --seqdb_ranges 10..20,30..40 " ++ newline);
           Toy.query_write [x41]; list_byte_of_string "//"].
Proof.
  split; [reflexivity|].
  apply (request_line_example Toy.query_write Toy.status_size Toy.status_deser
           Toy.stats_deser Toy.hit_deser [x41] Toy.pli (Toy.st0 [])).
  reflexivity.
Defined.

(** * Further properties of the client *)

(** ** Reading from the socket *)

Lemma recvall_ok_spec (n : nat) (st : St) :
  fragments_ok (sock_in st) -> n <= length (concat (sock_in st)) ->
  exists st', _recvall n st = (Ok (firstn n (concat (sock_in st))), st')
    /\ concat (sock_in st') = skipn n (concat (sock_in st))
    /\ fragments_ok (sock_in st')
    /\ sock_sent st' = sock_sent st.
Proof.
  intros Hfr Hn.
  destruct (recvall_loop_spec n n 0 (repeat x00 n) st) as [Hfull _];
    [now rewrite repeat_length | lia | lia | exact Hfr |].
  rewrite Nat.sub_0_r in Hfull. simpl in Hfull.
  exact (Hfull Hn).
Qed.

Lemma recvall_short_spec (n : nat) (st : St) :
  fragments_ok (sock_in st) -> length (concat (sock_in st)) < n ->
  exists st', _recvall n st = (Err (EOFError n (length (concat (sock_in st)))), st').
Proof.
  intros Hfr Hn.
  destruct (recvall_loop_spec n n 0 (repeat x00 n) st) as [_ Hshort];
    [now rewrite repeat_length | lia | lia | exact Hfr |].
  rewrite Nat.sub_0_r in Hshort. simpl in Hshort.
  exact (Hshort Hn).
Qed.

Lemma recv_chunk_spec (n : nat) (s : St) :
  fragments_ok (sock_in s) ->
  exists d s', recv_chunk n s = (Ok d, s')
    /\ d = firstn (length d) (concat (sock_in s))
    /\ length d <= n
    /\ concat (sock_in s') = skipn (length d) (concat (sock_in s))
    /\ sock_sent s' = sock_sent s.
Proof.
  intros Hfr. destruct s as [sent [|h t] ws]; simpl in *.
  - exists [], (mkSt sent [] ws). repeat split; simpl; lia.
  - set (k := Nat.min n (length h)).
    assert (Hlen : length (firstn k h) = k) by (rewrite length_firstn; lia).
    exists (firstn k h), (mkSt sent (match skipn k h with [] => t | r => r :: t end) ws).
    rewrite Hlen. split; [reflexivity|]. split; [|split; [lia|split; [|reflexivity]]].
    + rewrite firstn_app. replace (k - length h) with 0 by lia.
      rewrite firstn_O, app_nil_r. reflexivity.
    + simpl. rewrite skipn_app. replace (k - length h) with 0 by lia.
      destruct (skipn k h); reflexivity.
Qed.

Lemma recvall_loop_warns (fuel : nat) :
  forall n r b s, warns (snd (recvall_loop fuel n r b s)) = warns s.
Proof.
  induction fuel as [|fuel IH]; intros n r b s; simpl; [reflexivity|].
  destruct (r <? n); [|reflexivity].
  unfold bind, recv_chunk. destruct (sock_in s) as [|h t]; simpl.
  - reflexivity.
  - destruct (length (firstn (Nat.min (n - r) (length h)) h) =? 0); [reflexivity|].
    rewrite IH. reflexivity.
Qed.

Lemma recvall_warns (n : nat) (s : St) : warns (snd (_recvall n s)) = warns s.
Proof. apply recvall_loop_warns. Qed.

Lemma bind_ret_l {A B} (a : A) (f : A -> M B) s : bind (ret a) f s = f a s.
Proof. reflexivity. Qed.

Lemma bind_sendall {B} (d : list byte) (f : unit -> M B) s :
  bind (sendall d) f s = f tt (mkSt (sock_sent s ++ [d]) (sock_in s) (warns s)).
Proof. reflexivity. Qed.

Lemma list_ascii_of_string_app (s1 s2 : string) :
  list_ascii_of_string (s1 ++ s2) = list_ascii_of_string s1 ++ list_ascii_of_string s2.
Proof. induction s1 as [|c s1 IH]; simpl; [reflexivity|]. rewrite IH. reflexivity. Qed.

Lemma range_ok_iff (r : list pyobj) :
  negb (negb (length r =? 2))
  && (py_isinstance_int (nth 0 r (PyStr "")) && py_isinstance_int (nth 1 r (PyStr "")))
  = true <-> exists a b, r = [PyInt a; PyInt b].
Proof.
  split.
  - destruct r as [|[a|x] [|[b|y] [|z t]]]; simpl; try discriminate.
    intros _. exists a, b. reflexivity.
  - intros (a & b & ->). reflexivity.
Qed.

Lemma ranges_ok_iff (rs : list (list pyobj)) :
  negb (existsb (fun r => negb (length r =? 2)) rs)
  && forallb (fun r => py_isinstance_int (nth 0 r (PyStr ""))
                       && py_isinstance_int (nth 1 r (PyStr ""))) rs = true
  <-> Forall (fun r => exists a b, r = [PyInt a; PyInt b]) rs.
Proof.
  induction rs as [|r rs IH]; simpl.
  - split; auto.
  - rewrite Forall_cons_iff, <- IH, <- range_ok_iff.
    destruct (negb (length r =? 2)), (existsb _ rs),
      (py_isinstance_int _ && py_isinstance_int _), (forallb _ rs);
      simpl; intuition congruence.
Qed.

Section ClientPaths.

Context {Query : Type}.
Variable query_write : Query -> list byte.
Context {P7_HIT : Type}.
Variable HMMD_SEARCH_STATUS_SERIAL_SIZE : nat.
Variable hmmd_search_status_Deserialize :
  list byte -> nat -> Z * nat * HMMD_SEARCH_STATUS.
Variable p7_hmmd_search_stats_Deserialize :
  list byte -> nat -> Z * nat * HMMD_SEARCH_STATS.
Variable p7_hit_Deserialize : list byte -> nat -> Z * nat * P7_HIT.

Local Abbreviation client :=
  (_client query_write HMMD_SEARCH_STATUS_SERIAL_SIZE hmmd_search_status_Deserialize
     p7_hmmd_search_stats_Deserialize p7_hit_Deserialize).

Ltac send_request Hcr He :=
  unfold _client; cbv zeta;
  rewrite (bind_ok _ _ _ _ _ Hcr); rewrite He; cbv [lift];
  rewrite bind_ret_l; cbv beta;
  rewrite bind_sendall; cbv beta;
  rewrite bind_sendall; cbv beta;
  rewrite bind_sendall; cbv beta;
  cbn [sock_sent sock_in warns]; rewrite <- !app_assoc; simpl app.

(** When the peer closes the connection before the whole status header has
    arrived, [_client] raises [EOFError] with the header size and the number
    of bytes received, after the full request has been sent. *)
Lemma client_header_eof q db ranges pli mode st line :
  check_ranges ranges st = (Ok tt, st) ->
  encode_ascii (request_line mode db ranges (py_join "" (pli_arguments pli))) = Ok line ->
  fragments_ok (sock_in st) ->
  length (concat (sock_in st)) < HMMD_SEARCH_STATUS_SERIAL_SIZE ->
  exists st',
    client q db ranges pli mode st
    = (Err (EOFError HMMD_SEARCH_STATUS_SERIAL_SIZE (length (concat (sock_in st)))), st')
    /\ sock_sent st' = sock_sent st ++ [line; query_write q; list_byte_of_string "//"].
Proof.
  intros Hcr He Hfr Hshort.
  send_request Hcr He.
  match goal with |- context [bind (_recvall ?n) _ ?s] =>
    pose proof (keeps_sent_recvall n s) as Hk;
    destruct (recvall_short_spec n s Hfr Hshort) as (s4 & Hr) end.
  rewrite Hr in Hk. simpl in Hk.
  rewrite (bind_err _ _ _ _ _ Hr).
  exists s4. split; [reflexivity|exact Hk].
Qed.

(** When [hmmd_search_status_Deserialize] rejects the header, [_client]
    raises [UnexpectedError] with that status code; it has consumed exactly
    the header bytes and reads nothing more. *)
Lemma client_status_deserialize_error q db ranges pli mode st line status o hdr :
  check_ranges ranges st = (Ok tt, st) ->
  encode_ascii (request_line mode db ranges (py_join "" (pli_arguments pli))) = Ok line ->
  fragments_ok (sock_in st) ->
  HMMD_SEARCH_STATUS_SERIAL_SIZE <= length (concat (sock_in st)) ->
  hmmd_search_status_Deserialize
    (firstn HMMD_SEARCH_STATUS_SERIAL_SIZE (concat (sock_in st))) 0 = (status, o, hdr) ->
  status <> eslOK ->
  exists st',
    client q db ranges pli mode st
    = (Err (UnexpectedError status "hmmd_search_status_Deserialize"), st')
    /\ concat (sock_in st') = skipn HMMD_SEARCH_STATUS_SERIAL_SIZE (concat (sock_in st))
    /\ sock_sent st' = sock_sent st ++ [line; query_write q; list_byte_of_string "//"].
Proof.
  intros Hcr He Hfr Hn Hd Hne.
  send_request Hcr He.
  match goal with |- context [bind (_recvall ?n) _ ?s] =>
    destruct (recvall_ok_spec n s Hfr Hn) as (s4 & Hr & Hcat & _ & Hsent) end.
  rewrite (bind_ok _ _ _ _ _ Hr). cbv beta. cbn [sock_in] in *.
  rewrite Hd. rewrite (proj2 (Z.eqb_neq _ _) Hne). cbv [negb raise].
  exists s4. split; [reflexivity|split; assumption].
Qed.

(** When the header reports a server-side error, [_client] raises
    [ServerError] with the header's status code and the decoded text of a
    single read: a prefix of the bytes after the header, no longer than the
    announced message size.  Exactly the header and these bytes are
    consumed. *)
Lemma client_server_error q db ranges pli mode st line o hdr :
  check_ranges ranges st = (Ok tt, st) ->
  encode_ascii (request_line mode db ranges (py_join "" (pli_arguments pli))) = Ok line ->
  fragments_ok (sock_in st) ->
  HMMD_SEARCH_STATUS_SERIAL_SIZE <= length (concat (sock_in st)) ->
  hmmd_search_status_Deserialize
    (firstn HMMD_SEARCH_STATUS_SERIAL_SIZE (concat (sock_in st))) 0 = (eslOK, o, hdr) ->
  st_status hdr <> eslOK ->
  exists m st',
    client q db ranges pli mode st
    = (Err (ServerError (st_status hdr) (utf8_decode_replace m)), st')
    /\ m = firstn (length m) (skipn HMMD_SEARCH_STATUS_SERIAL_SIZE (concat (sock_in st)))
    /\ length m <= st_msg_size hdr
    /\ concat (sock_in st')
       = skipn (HMMD_SEARCH_STATUS_SERIAL_SIZE + length m) (concat (sock_in st))
    /\ sock_sent st' = sock_sent st ++ [line; query_write q; list_byte_of_string "//"].
Proof.
  intros Hcr He Hfr Hn Hd Hne.
  send_request Hcr He.
  match goal with |- context [bind (_recvall ?n) _ ?s] =>
    destruct (recvall_ok_spec n s Hfr Hn) as (s4 & Hr & Hcat & Hfr4 & Hsent) end.
  rewrite (bind_ok _ _ _ _ _ Hr). cbv beta. cbn [sock_in] in *.
  rewrite Hd. rewrite Z.eqb_refl. rewrite (proj2 (Z.eqb_neq _ _) Hne). cbv [negb].
  destruct (recv_chunk_spec (st_msg_size hdr) s4 Hfr4)
    as (m & s5 & Hc & Hm & Hl & Hcat5 & Hsent5).
  unfold recv. rewrite (bind_ok _ _ _ _ _ Hc). cbv [raise].
  exists m, s5. rewrite Hcat in Hm, Hcat5. rewrite skipn_skipn in Hcat5.
  split; [reflexivity|]. split; [exact Hm|]. split; [exact Hl|]. split.
  - rewrite Hcat5. f_equal. lia.
  - rewrite Hsent5, Hsent. reflexivity.
Qed.

(** What a successful call has read, and the warnings it has emitted. *)
Lemma client_ok_trace q db ranges pli mode st line hits st' :
  check_ranges ranges st = (Ok tt, st) ->
  encode_ascii (request_line mode db ranges (py_join "" (pli_arguments pli))) = Ok line ->
  fragments_ok (sock_in st) ->
  client q db ranges pli mode st = (Ok hits, st') ->
  exists o hdr bo stats,
    hmmd_search_status_Deserialize
      (firstn HMMD_SEARCH_STATUS_SERIAL_SIZE (concat (sock_in st))) 0 = (eslOK, o, hdr)
    /\ st_status hdr = eslOK
    /\ p7_hmmd_search_stats_Deserialize
         (firstn (st_msg_size hdr)
            (skipn HMMD_SEARCH_STATUS_SERIAL_SIZE (concat (sock_in st)))) 0
       = (eslOK, bo, stats)
    /\ concat (sock_in st')
       = skipn (HMMD_SEARCH_STATUS_SERIAL_SIZE + st_msg_size hdr) (concat (sock_in st))
    /\ warns st'
       = warns st ++ offset_mismatches bo (ss_hit_offsets stats) 0
                      (decode_cursors p7_hit_Deserialize
                         (firstn (st_msg_size hdr)
                            (skipn HMMD_SEARCH_STATUS_SERIAL_SIZE (concat (sock_in st))))
                         bo (ss_nhits stats)).
Proof.
  intros Hcr He Hfr. send_request Hcr He. intros Hok.
  match type of Hok with bind (_recvall ?n) _ ?s = _ =>
    destruct (Nat.le_gt_cases n (length (concat (sock_in s)))) as [Hn|Hn];
    [pose proof (recvall_warns n s) as Hw4;
     destruct (recvall_ok_spec n s Hfr Hn) as (s4 & Hr & Hcat & Hfr4 & _)
    |destruct (recvall_short_spec n s Hfr Hn) as (s4 & Hr)] end;
  [|rewrite (bind_err _ _ _ _ _ Hr) in Hok; discriminate Hok].
  rewrite Hr in Hw4. cbn [snd warns] in Hw4.
  rewrite (bind_ok _ _ _ _ _ Hr) in Hok. cbv beta in Hok. cbn [sock_in] in *.
  destruct (hmmd_search_status_Deserialize _ 0) as [[status o] hdr] eqn:Hd.
  cbv beta iota in Hok.
  destruct (Z.eqb_spec status eslOK) as [->|Hne]; cbv [negb] in Hok;
    [|discriminate Hok].
  destruct (Z.eqb_spec (st_status hdr) eslOK) as [Hst|Hne]; cbv [negb] in Hok;
    [|unfold bind in Hok; destruct (recv _ _) as [[?|?] ?] in Hok; discriminate Hok].
  pose proof (recvall_warns (st_msg_size hdr) s4) as Hw5.
  destruct (Nat.le_gt_cases (st_msg_size hdr) (length (concat (sock_in s4)))) as [Hm|Hm];
    [destruct (recvall_ok_spec _ s4 Hfr4 Hm) as (s5 & Hr5 & Hcat5 & _ & _)
    |destruct (recvall_short_spec _ s4 Hfr4 Hm) as (s5 & Hr5);
     rewrite (bind_err _ _ _ _ _ Hr5) in Hok; discriminate Hok].
  rewrite Hr5 in Hw5. cbn [snd] in Hw5.
  rewrite (bind_ok _ _ _ _ _ Hr5) in Hok. cbv beta in Hok.
  rewrite Hcat in Hok, Hcat5.
  destruct (p7_hmmd_search_stats_Deserialize _ 0) as [[status2 bo] stats] eqn:Hs.
  cbv beta iota in Hok.
  destruct (Z.eqb_spec status2 eslOK) as [->|Hne]; cbv [negb] in Hok;
    [|discriminate Hok].
  destruct s5 as [sent5 inb5 ws5].
  match type of Hok with bind (deserialize_hits ?d ?r ?hs ?offs ?i ?c ?bo ?th) _ _ = _ =>
    destruct (deserialize_hits_warnings d r hs c i bo th) as [o' Ho] end.
  destruct o' as [th'|e].
  - rewrite (bind_ok _ _ _ _ _ (Ho _ _ _ _)) in Hok. cbv [ret] in Hok.
    inversion Hok; subst st'. simpl in *.
    exists o, hdr, bo, stats. split; [reflexivity|]. split; [exact Hst|].
    split; [exact Hs|]. split.
    + rewrite Hcat5, skipn_skipn. f_equal. lia.
    + rewrite Hw5, Hw4. reflexivity.
  - rewrite (bind_err _ _ _ _ _ (Ho _ _ _ _)) in Hok. discriminate Hok.
Qed.

(** On success, the returned pipeline records the mode of the call, keeps
    the caller's configuration, and holds the counters of the statistics
    sent by the server; the hit collection's [nreported] and [nincluded]
    also come from these statistics. *)
Lemma client_result_pipeline q db ranges pli mode st hits st' :
  client q db ranges pli mode st = (Ok hits, st') ->
  exists payload bo stats,
    p7_hmmd_search_stats_Deserialize payload 0 = (eslOK, bo, stats)
    /\ pli_mode (_pli hits) = mode
    /\ pli_arguments (_pli hits) = pli_arguments pli
    /\ pli_nmodels (_pli hits) = ss_nmodels stats
    /\ pli_nseqs (_pli hits) = ss_nseqs stats
    /\ pli_Z (_pli hits) = ss_Z stats
    /\ pli_domZ (_pli hits) = ss_domZ stats
    /\ th_nreported (_th hits) = ss_nreported stats
    /\ th_nincluded (_th hits) = ss_nincluded stats.
Proof.
  intros H.
  destruct (client_ok_inv query_write HMMD_SEARCH_STATUS_SERIAL_SIZE
              hmmd_search_status_Deserialize p7_hmmd_search_stats_Deserialize
              p7_hit_Deserialize _ _ _ _ _ _ _ _ H)
    as (payload & bo & stats & s1 & th' & Hstats & Hloop & ->).
  assert (Hlen : ss_nhits stats <= length (th_unsrt (init_tophits (P7_HIT:=P7_HIT) p7_tophits_Create stats))
              /\ ss_nhits stats <= length (th_hit (init_tophits (P7_HIT:=P7_HIT) p7_tophits_Create stats))).
  { unfold init_tophits. simpl.
    destruct (Nat.ltb_spec 0 (ss_nhits stats)); rewrite ?length_realloc; lia. }
  destruct Hlen as [Hu Hh].
  destruct (deserialize_hits_ok _ _ _ _ _ _ _ _ _ _ _ Hloop Hu Hh)
    as (hs & _ & _ & _ & Hr & Hi & _).
  exists payload, bo, stats. simpl in *.
  repeat (split; [first [exact Hstats | reflexivity | assumption]|]). assumption.
Qed.

(** When the joined pipeline options are not ASCII (and the ranges are
    valid), [_client] raises [UnicodeEncodeError] while encoding the
    request line: nothing is sent and nothing is read. *)
Lemma client_non_ascii_options q db ranges pli mode st :
  check_ranges ranges st = (Ok tt, st) ->
  encode_ascii (py_join "" (pli_arguments pli)) = Err UnicodeEncodeError ->
  client q db ranges pli mode st = (Err UnicodeEncodeError, st).
Proof.
  intros Hcr Hopt.
  assert (Hbad : forallb (fun c => Nat.ltb (nat_of_ascii c) 128)
                   (list_ascii_of_string (py_join "" (pli_arguments pli))) = false).
  { unfold encode_ascii in Hopt. destruct (forallb _ _); [discriminate|reflexivity]. }
  assert (He : encode_ascii (request_line mode db ranges (py_join "" (pli_arguments pli)))
               = Err UnicodeEncodeError).
  { unfold encode_ascii, request_line.
    destruct mode; [destruct ranges|];
      rewrite ?list_ascii_of_string_app, ?forallb_app, ?Hbad, ?andb_false_r;
      simpl; rewrite ?andb_false_r; reflexivity. }
  unfold _client. cbv zeta.
  rewrite (bind_ok _ _ _ _ _ Hcr), He. reflexivity.
Qed.

(** A successful call reads exactly the status header and the announced
    payload from the socket; the statistics are decoded from exactly the
    payload bytes, and what follows them stays unread for the next call. *)
Lemma client_consumes_exactly q db ranges pli mode st line hits st' :
  check_ranges ranges st = (Ok tt, st) ->
  encode_ascii (request_line mode db ranges (py_join "" (pli_arguments pli))) = Ok line ->
  fragments_ok (sock_in st) ->
  client q db ranges pli mode st = (Ok hits, st') ->
  exists o hdr bo stats,
    hmmd_search_status_Deserialize
      (firstn HMMD_SEARCH_STATUS_SERIAL_SIZE (concat (sock_in st))) 0 = (eslOK, o, hdr)
    /\ st_status hdr = eslOK
    /\ p7_hmmd_search_stats_Deserialize
         (firstn (st_msg_size hdr)
            (skipn HMMD_SEARCH_STATUS_SERIAL_SIZE (concat (sock_in st)))) 0
       = (eslOK, bo, stats)
    /\ concat (sock_in st')
       = skipn (HMMD_SEARCH_STATUS_SERIAL_SIZE + st_msg_size hdr) (concat (sock_in st)).
Proof.
  intros Hcr He Hfr Hok.
  destruct (client_ok_trace q db ranges pli mode st line hits st' Hcr He Hfr Hok)
    as (o & hdr & bo & stats & H1 & H2 & H3 & H4 & _).
  exists o, hdr, bo, stats. auto.
Qed.

(** The only warnings a successful call emits are those of the hit loop:
    one for each hit whose decoder cursor disagrees with the offset table. *)
Lemma client_success_warnings q db ranges pli mode st line hits st' :
  check_ranges ranges st = (Ok tt, st) ->
  encode_ascii (request_line mode db ranges (py_join "" (pli_arguments pli))) = Ok line ->
  fragments_ok (sock_in st) ->
  client q db ranges pli mode st = (Ok hits, st') ->
  exists payload bo stats,
    p7_hmmd_search_stats_Deserialize payload 0 = (eslOK, bo, stats)
    /\ warns st'
       = warns st ++ offset_mismatches bo (ss_hit_offsets stats) 0
                      (decode_cursors p7_hit_Deserialize payload bo (ss_nhits stats)).
Proof.
  intros Hcr He Hfr Hok.
  destruct (client_ok_trace q db ranges pli mode st line hits st' Hcr He Hfr Hok)
    as (o & hdr & bo & stats & _ & _ & H3 & _ & H5).
  eexists. exists bo, stats. split; [exact H3|exact H5].
Qed.

End ClientPaths.

(** The range validation succeeds, leaving the socket untouched, exactly
    when the ranges form a non-empty list of pairs of integers. *)
Lemma check_ranges_accepts (rs : list (list pyobj)) (st : St) :
  check_ranges (Some rs) st = (Ok tt, st)
  <-> rs <> [] /\ Forall (fun r => exists a b, r = [PyInt a; PyInt b]) rs.
Proof.
  rewrite <- ranges_ok_iff.
  destruct rs as [|r rs].
  - simpl. split; [discriminate|]. intros [H _]. congruence.
  - cbv [check_ranges bind lift py_iter ret raise].
    destruct (existsb _ (r :: rs)), (forallb _ (r :: rs)); simpl;
      split; try discriminate; try (intros [_ H]; discriminate H); auto.
    intros _. split; [discriminate|reflexivity].
Qed.

(** A range whose length is not 2 is reported with the [ValueError] about
    two-element tuples, even when other ranges hold non-integers: the length
    check comes before the type check. *)
Lemma check_ranges_length_first (rs : list (list pyobj)) (st : St) :
  (exists r, In r rs /\ length r <> 2) ->
  check_ranges (Some rs) st
  = (Err (ValueError "`ranges` must be a list of two-element tuples"), st).
Proof.
  intros (r & Hin & Hl).
  destruct rs as [|r0 rs]; [destruct Hin|].
  assert (He : existsb (fun r => negb (length r =? 2)) (r0 :: rs) = true).
  { apply existsb_exists. exists r. split; [exact Hin|].
    apply Nat.eqb_neq in Hl. rewrite Hl. reflexivity. }
  cbv [check_ranges bind lift py_iter ret raise]. rewrite He. reflexivity.
Qed.

(** When every range has two elements but one of them is not a pair of
    integers, the validation raises [TypeError]. *)
Lemma check_ranges_type_error (rs : list (list pyobj)) (st : St) :
  Forall (fun r => length r = 2) rs ->
  (exists r, In r rs /\ ~ exists a b, r = [PyInt a; PyInt b]) ->
  check_ranges (Some rs) st
  = (Err (TypeError "`ranges` must be a list where elements are 2-tuples of int"), st).
Proof.
  intros Hlen (r & Hin & Hr).
  destruct rs as [|r0 rs]; [destruct Hin|].
  assert (He : existsb (fun r => negb (length r =? 2)) (r0 :: rs) = false).
  { apply not_true_iff_false. intros Hx. apply existsb_exists in Hx as (x & Hx & Hb).
    rewrite Forall_forall in Hlen. rewrite (Hlen x Hx) in Hb. discriminate. }
  assert (Hf : forallb (fun r => py_isinstance_int (nth 0 r (PyStr ""))
                                 && py_isinstance_int (nth 1 r (PyStr ""))) (r0 :: rs) = false).
  { apply not_true_iff_false. intros Hx. rewrite forallb_forall in Hx.
    apply Hr, range_ok_iff. rewrite Forall_forall in Hlen.
    rewrite (Hlen r Hin), (Hx r Hin). reflexivity. }
  cbv [check_ranges bind lift py_iter ret raise]. rewrite He, Hf. reflexivity.
Qed.

(** Two consecutive [_recvall] calls of [a] and [b] bytes return the first
    [a] bytes and then the next [b] bytes of the stream, and leave the rest
    unread: [_recvall] never reads past the requested size. *)
Lemma recvall_consecutive (a b : nat) (st : St) :
  fragments_ok (sock_in st) -> a + b <= length (concat (sock_in st)) ->
  exists s1 s2,
    _recvall a st = (Ok (firstn a (concat (sock_in st))), s1)
    /\ _recvall b s1 = (Ok (firstn b (skipn a (concat (sock_in st)))), s2)
    /\ firstn a (concat (sock_in st)) ++ firstn b (skipn a (concat (sock_in st)))
       = firstn (a + b) (concat (sock_in st))
    /\ concat (sock_in s2) = skipn (a + b) (concat (sock_in st))
    /\ sock_sent s2 = sock_sent st.
Proof.
  intros Hfr Hn.
  destruct (recvall_ok_spec a st Hfr ltac:(lia)) as (s1 & H1 & Hc1 & Hfr1 & Hs1).
  assert (Hb : b <= length (concat (sock_in s1))) by (rewrite Hc1, length_skipn; lia).
  destruct (recvall_ok_spec b s1 Hfr1 Hb) as (s2 & H2 & Hc2 & _ & Hs2).
  rewrite Hc1 in H2, Hc2.
  exists s1, s2. split; [exact H1|]. split; [exact H2|]. split.
  - rewrite <- (firstn_split_at a (a + b)) by lia.
    replace (a + b - a) with b by lia. reflexivity.
  - split; [rewrite Hc2, skipn_skipn; f_equal; lia|congruence].
Qed.

(** [Client.__repr__] raises [TypeError] whenever the port is not the
    default one: the port, an [int], is given to [str.join]. *)
Lemma repr_nondefault_port (module name addr : string) (p : N) :
  p <> DEFAULT_PORT ->
  Client_repr module name (mkClient addr p)
  = Err (TypeError ("sequence item "
                    ++ (if String.eqb addr DEFAULT_ADDRESS then "0" else "1")
                    ++ ": expected str instance, int found")%string).
Proof.
  intros Hp. unfold Client_repr. cbn [address port].
  rewrite (proj2 (N.eqb_neq _ _) Hp).
  destruct (String.eqb addr DEFAULT_ADDRESS); reflexivity.
Qed.

(** With the default port, [Client.__repr__] is the qualified class name
    followed by the address in parentheses when it is not the default, and
    by empty parentheses otherwise. *)
Lemma repr_default_port (module name addr : string) :
  Client_repr module name (mkClient addr DEFAULT_PORT)
  = Ok (module ++ "." ++ name ++ "("
        ++ (if String.eqb addr DEFAULT_ADDRESS then "" else addr) ++ ")")%string.
Proof.
  unfold Client_repr. cbn [address port].
  rewrite N.eqb_refl.
  destruct (String.eqb addr DEFAULT_ADDRESS); reflexivity.
Qed.


(** ** Witnesses of the further properties *)

Lemma client_header_eof_witness :
  exists st',
    Toy.client [x41] 3 Toy.ranges12 Toy.pli p7_SEARCH_SEQS (Toy.st0 [[x00]])
    = (Err (EOFError Toy.status_size 1), st')
    /\ sock_sent st'
       = [list_byte_of_string ("@--seqdb 3 --seqdb_ranges 1..2 " ++ newline);
          [x41]; list_byte_of_string "//"].
Proof.
  apply (client_header_eof Toy.query_write Toy.status_size Toy.status_deser
           Toy.stats_deser Toy.hit_deser [x41] 3 Toy.ranges12 Toy.pli p7_SEARCH_SEQS
           (Toy.st0 [[x00]])).
  - vm_compute. reflexivity.
  - vm_compute. reflexivity.
  - repeat constructor; discriminate.
  - apply Nat.ltb_lt. reflexivity.
Defined.

Lemma client_status_deserialize_error_witness :
  exists st',
    _client Toy.query_write Toy.status_size (fun _ _ => (5%Z, 0, mkStatus 0 0))
      Toy.stats_deser Toy.hit_deser [x41] 3 Toy.ranges12 Toy.pli p7_SEARCH_SEQS
      (Toy.st0 Toy.incoming_ok)
    = (Err (UnexpectedError 5 "hmmd_search_status_Deserialize"), st')
    /\ concat (sock_in st') = [x02; x00; x01; x07; x09]
    /\ sock_sent st'
       = [list_byte_of_string ("@--seqdb 3 --seqdb_ranges 1..2 " ++ newline);
          [x41]; list_byte_of_string "//"].
Proof.
  apply (client_status_deserialize_error Toy.query_write Toy.status_size
           (fun _ _ => (5%Z, 0, mkStatus 0 0)) Toy.stats_deser Toy.hit_deser
           [x41] 3 Toy.ranges12 Toy.pli p7_SEARCH_SEQS (Toy.st0 Toy.incoming_ok)
           _ 5%Z 0 (mkStatus 0 0)).
  - vm_compute. reflexivity.
  - vm_compute. reflexivity.
  - repeat constructor; discriminate.
  - apply Nat.leb_le. reflexivity.
  - reflexivity.
  - discriminate.
Defined.

Lemma client_server_error_witness :
  exists m st',
    Toy.client [] 1 Toy.ranges12 Toy.pli p7_SEARCH_SEQS
      (Toy.st0 [[x07; x2a]; repeat x61 20; repeat x62 22])
    = (Err (ServerError 7 (utf8_decode_replace m)), st')
    /\ m = firstn (length m) (skipn Toy.status_size
                                (concat [[x07; x2a]; repeat x61 20; repeat x62 22]))
    /\ length m <= 42
    /\ concat (sock_in st')
       = skipn (Toy.status_size + length m)
           (concat [[x07; x2a]; repeat x61 20; repeat x62 22])
    /\ sock_sent st'
       = [list_byte_of_string ("@--seqdb 1 --seqdb_ranges 1..2 " ++ newline);
          []; list_byte_of_string "//"].
Proof.
  apply (client_server_error Toy.query_write Toy.status_size Toy.status_deser
           Toy.stats_deser Toy.hit_deser [] 1 Toy.ranges12 Toy.pli p7_SEARCH_SEQS
           (Toy.st0 [[x07; x2a]; repeat x61 20; repeat x62 22]) _ 2 (mkStatus 7 42)).
  - vm_compute. reflexivity.
  - vm_compute. reflexivity.
  - repeat constructor; discriminate.
  - apply Nat.leb_le. reflexivity.
  - vm_compute. reflexivity.
  - discriminate.
Defined.

Lemma client_consumes_exactly_witness :
  exists o hdr bo stats,
    Toy.status_deser
      (firstn Toy.status_size (concat (Toy.incoming_ok ++ [[x2a]]))) 0 = (eslOK, o, hdr)
    /\ st_status hdr = eslOK
    /\ Toy.stats_deser
         (firstn (st_msg_size hdr)
            (skipn Toy.status_size (concat (Toy.incoming_ok ++ [[x2a]])))) 0
       = (eslOK, bo, stats)
    /\ concat [[x2a]]
       = skipn (Toy.status_size + st_msg_size hdr) (concat (Toy.incoming_ok ++ [[x2a]])).
Proof.
  apply (client_consumes_exactly Toy.query_write Toy.status_size Toy.status_deser
           Toy.stats_deser Toy.hit_deser [x41] 3 Toy.ranges12 Toy.pli p7_SEARCH_SEQS
           (Toy.st0 (Toy.incoming_ok ++ [[x2a]]))
           (list_byte_of_string ("@--seqdb 3 --seqdb_ranges 1..2 " ++ newline)) Toy.hits_ok
           (mkSt [list_byte_of_string ("@--seqdb 3 --seqdb_ranges 1..2 " ++ newline);
                  [x41]; list_byte_of_string "//"] [[x2a]] [])).
  - vm_compute. reflexivity.
  - vm_compute. reflexivity.
  - repeat constructor; discriminate.
  - vm_compute. reflexivity.
Defined.

Lemma client_success_warnings_witness :
  exists payload bo stats,
    Toy.stats_deser payload 0 = (eslOK, bo, stats)
    /\ [HitOffsetWarning 1 5 1]
       = [] ++ offset_mismatches bo (ss_hit_offsets stats) 0
                 (decode_cursors Toy.hit_deser payload bo (ss_nhits stats)).
Proof.
  apply (client_success_warnings Toy.query_write Toy.status_size Toy.status_deser
           Toy.stats_deser Toy.hit_deser [x41] 3 Toy.ranges12 Toy.pli p7_SEARCH_SEQS
           (Toy.st0 [[x00; x05]; [x02; x00; x05; x07]; [x09]])
           (list_byte_of_string ("@--seqdb 3 --seqdb_ranges 1..2 " ++ newline)) Toy.hits_ok
           (mkSt [list_byte_of_string ("@--seqdb 3 --seqdb_ranges 1..2 " ++ newline);
                  [x41]; list_byte_of_string "//"] [] [HitOffsetWarning 1 5 1])).
  - vm_compute. reflexivity.
  - vm_compute. reflexivity.
  - repeat constructor; discriminate.
  - vm_compute. reflexivity.
Defined.

Lemma client_result_pipeline_witness :
  exists payload bo stats,
    Toy.stats_deser payload 0 = (eslOK, bo, stats)
    /\ pli_mode (_pli Toy.hits_ok) = p7_SEARCH_SEQS
    /\ pli_arguments (_pli Toy.hits_ok) = pli_arguments Toy.pli
    /\ pli_nmodels (_pli Toy.hits_ok) = ss_nmodels stats
    /\ pli_nseqs (_pli Toy.hits_ok) = ss_nseqs stats
    /\ pli_Z (_pli Toy.hits_ok) = ss_Z stats
    /\ pli_domZ (_pli Toy.hits_ok) = ss_domZ stats
    /\ th_nreported (_th Toy.hits_ok) = ss_nreported stats
    /\ th_nincluded (_th Toy.hits_ok) = ss_nincluded stats.
Proof.
  apply (client_result_pipeline Toy.query_write Toy.status_size Toy.status_deser
           Toy.stats_deser Toy.hit_deser [x41] 3 Toy.ranges12 Toy.pli p7_SEARCH_SEQS
           (Toy.st0 Toy.incoming_ok) Toy.hits_ok
           (mkSt [list_byte_of_string ("@--seqdb 3 --seqdb_ranges 1..2 " ++ newline);
                  [x41]; list_byte_of_string "//"] [] [])).
  vm_compute. reflexivity.
Defined.

Lemma client_non_ascii_options_witness :
  Toy.client [x41] 3 Toy.ranges12
    (mkPipeline p7_SEARCH_SEQS 0 0 0 0 0 0 0 0 0
       [String (ascii_of_nat 200) EmptyString]) p7_SEARCH_SEQS (Toy.st0 Toy.incoming_ok)
  = (Err UnicodeEncodeError, Toy.st0 Toy.incoming_ok).
Proof.
  apply (client_non_ascii_options Toy.query_write Toy.status_size Toy.status_deser
           Toy.stats_deser Toy.hit_deser).
  - vm_compute. reflexivity.
  - vm_compute. reflexivity.
Defined.

Lemma check_ranges_length_first_witness :
  check_ranges (Some [[PyStr "a"; PyStr "b"]; [PyInt 1]]) (Toy.st0 [])
  = (Err (ValueError "`ranges` must be a list of two-element tuples"), Toy.st0 []).
Proof.
  apply check_ranges_length_first.
  exists [PyInt 1]. split; [simpl; auto|simpl; discriminate].
Defined.

Lemma check_ranges_type_error_witness :
  check_ranges (Some [[PyInt 1; PyInt 2]; [PyInt 3; PyStr "4"]]) (Toy.st0 [])
  = (Err (TypeError "`ranges` must be a list where elements are 2-tuples of int"),
     Toy.st0 []).
Proof.
  apply check_ranges_type_error.
  - repeat constructor.
  - exists [PyInt 3; PyStr "4"]. split; [simpl; auto|].
    intros (a & b & H). discriminate H.
Defined.

Lemma recvall_consecutive_witness :
  exists s1 s2,
    _recvall 1 (Toy.st0 [[x01; x02]; [x03]; [x04; x05; x06]]) = (Ok [x01], s1)
    /\ _recvall 4 s1 = (Ok [x02; x03; x04; x05], s2)
    /\ [x01] ++ [x02; x03; x04; x05] = [x01; x02; x03; x04; x05]
    /\ concat (sock_in s2) = [x06]
    /\ sock_sent s2 = [].
Proof.
  apply (recvall_consecutive 1 4 (Toy.st0 [[x01; x02]; [x03]; [x04; x05; x06]])).
  - repeat constructor; discriminate.
  - apply Nat.leb_le. reflexivity.
Defined.

Lemma repr_nondefault_port_witness :
  Client_repr "pyhmmer.daemon" "Client" (mkClient "10.0.0.1" 8080)
  = Err (TypeError "sequence item 1: expected str instance, int found").
Proof.
  apply repr_nondefault_port. discriminate.
Defined.

